(** * Potassium: request dispatch in [potassium/potassium.py]

    A shallow embedding of the [Potassium] class: the endpoint registry
    ([handler], [background]), the dispatch function [_handle_generic]
    with its busy probe, the background [task], the single-slot event
    queue ([_write_event_chan], [_read_event_chan]) and the two adapter
    entry points ([handle] under Flask and under FastAPI).

    Python objects are modelled by an inductive of values, exceptions
    by an inductive of exception instances, and the methods of the
    class by functions in a state-and-exception monad over the fields
    of [self].  A background thread is a small state machine: pending,
    running with the lock held, finished.  User functions are functions
    of the context and the request to a result.  The two response
    constructors are the libraries'; the ways they fail (a missing
    argument, no application context of Flask, a value without JSON
    encoding) are part of the model.  The server loop of [serve] is
    outside it. *)

From Stdlib Require Import ZArith String List Lia.
From stdpp Require Import gmap strings list fin_maps.

Set Warnings "-register-all".

Open Scope Z_scope.
Open Scope string_scope.

(** ** Python values *)

(** The values that handlers take and return.  [PyResponse] is an object whose
    [type()] is exactly the class [Response] of the module (fields
    [status] and [json], neither checked by [__init__]); [PyDict] is an
    object whose [type()] is exactly [dict]; [PyObject cls] is an
    instance of any other class, subclasses of [Response] and of [dict]
    included. *)
Inductive PyVal : Type :=
| PyNone
| PyBool (b : bool)
| PyInt (z : Z)
| PyStr (s : string)
| PyBytes (s : string)
| PyList (l : list PyVal)
| PyDict (d : list (string * PyVal))
| PyResponse (status : Z) (json : PyVal)
| PyObject (cls : string).

(** The result of [type(v)], as far as the wrapper of [handler] tests
    it. *)
Inductive PyType : Type :=
| TResponse | TDict | TOther.

Definition type_of (v : PyVal) : PyType :=
  match v with
  | PyResponse _ _ => TResponse
  | PyDict _ => TDict
  | _ => TOther
  end.

Definition PyType_eqb (a b : PyType) : bool :=
  match a, b with
  | TResponse, TResponse | TDict, TDict | TOther, TOther => true
  | _, _ => false
  end.

(** [class Request]: one field, the parsed body. *)
Record Request : Type := mkRequest { req_json : PyVal }.

(** ** Exceptions *)

(** Exception instances.  [PyException cls msg] is an instance of
    [Exception] or of a class deriving from it; [Full] is [queue.Full];
    [HTTPException] is what [abort(404)] and
    [raise HTTPException(status_code=404)] raise, with the headers the
    raiser passed; [PyBaseException cls] is an instance of a class that
    derives from [BaseException] but not from [Exception]
    ([SystemExit], [KeyboardInterrupt], [GeneratorExit]). *)
Inductive PyExn : Type :=
| PyException (cls msg : string)
| Full
| HTTPException (status_code : Z) (hdrs : list (string * string))
| PyBaseException (cls : string).

(** [isinstance(e, Exception)], the test of [except Exception]. *)
Definition isinstance_Exception (e : PyExn) : bool :=
  match e with
  | PyBaseException _ => false
  | _ => true
  end.

(** How a call ends: it returns a value, it raises, or the calling
    thread is suspended (a blocking [acquire] on a held lock, a blocking
    [get] on an empty queue). *)
Inductive Result (A : Type) : Type :=
| Returned (a : A)
| Raised (e : PyExn)
| Blocked.
Arguments Returned {A} a.
Arguments Raised {A} e.
Arguments Blocked {A}.

(** ** The objects of the module *)

(** [class Endpoint].  [func] is the [wrapper] closure stored by the
    decorators; it reads [self._context] when it is called, which is
    made explicit as its first argument. *)
Record Endpoint : Type := mkEndpoint {
  type : string;
  func : PyVal -> Request -> Result PyVal
}.

(** The response objects built by [JSONResponse] (Starlette) and by
    [make_response] (Flask): the class that built the object, the body
    it was given, its status code (200 unless assigned) and the headers
    that [_handle_generic] sets.  [ErrorResponse] is the response a
    framework makes of an [HTTPException]. *)
Inductive ResponseClass : Type :=
| StarletteJSONResponse | FlaskResponse | ErrorResponse.

Record WireResponse : Type := mkWire {
  res_class : ResponseClass;
  content : PyVal;
  status_code : Z;
  headers : gmap string string
}.

(** The values [json.dumps] encodes: [None], booleans, integers,
    strings, and lists and dictionaries of such values.  Bytes have no
    encoding, nor has an instance of another class (a value of a
    subclass of a JSON type, which the encoder treats as that type, is
    written here as the value of that type when it is inside a
    payload). *)
Fixpoint json_serializable (v : PyVal) : bool :=
  match v with
  | PyNone | PyBool _ | PyInt _ | PyStr _ => true
  | PyList l => forallb json_serializable l
  | PyDict d => forallb (fun kv => json_serializable (snd kv)) d
  | PyBytes _ | PyResponse _ _ | PyObject _ => false
  end.

(** Starlette's [JSONResponse(content)]; the argument list is [None]
    for a call with no argument.  [content] is a required argument,
    and the constructor renders it with [json.dumps]; either way a
    failure is a [TypeError]. *)
Definition JSONResponse (args : option PyVal) : Result WireResponse :=
  match args with
  | None => Raised (PyException "TypeError" "missing argument: content")
  | Some content =>
      if json_serializable content
      then Returned (mkWire StarletteJSONResponse content 200 ∅)
      else Raised (PyException "TypeError" "not JSON serializable")
  end.

(** Flask's [make_response], which works through [current_app]:
    outside an application context of Flask ([app_context = false]) it
    raises [RuntimeError].  Inside one, no argument gives an empty
    response, a string or bytes a response with that body, a [dict] or
    a [list] a response with its JSON encoding ([TypeError] when it has
    none), and any other value a [TypeError]. *)
Definition make_response (app_context : bool) (args : option PyVal)
  : Result WireResponse :=
  if negb app_context then
    Raised (PyException "RuntimeError" "Working outside of application context.")
  else
    match args with
    | None => Returned (mkWire FlaskResponse (PyBytes "") 200 ∅)
    | Some rv =>
        match rv with
        | PyStr _ | PyBytes _ => Returned (mkWire FlaskResponse rv 200 ∅)
        | PyDict _ | PyList _ =>
            if json_serializable rv
            then Returned (mkWire FlaskResponse rv 200 ∅)
            else Raised (PyException "TypeError" "not JSON serializable")
        | _ => Raised (PyException "TypeError" "not a valid response")
        end
    end.

Arguments JSONResponse : simpl never.
Arguments make_response : simpl never.

Definition set_status_code (c : Z) (r : WireResponse) : WireResponse :=
  mkWire (res_class r) (content r) c (headers r).

Definition set_header (k v : string) (r : WireResponse) : WireResponse :=
  mkWire (res_class r) (content r) (status_code r) (<[k := v]> (headers r)).

(** [queue.Queue]: a FIFO with a bound; [maxsize <= 0] means unbounded. *)
Record Queue : Type := mkQueue {
  maxsize : Z;
  queue : list PyVal
}.

(** A [threading.Thread] created with [target=task] and the arguments
    [(endpoint, self._lock, req)].  It is [Pending] until it has
    acquired the lock, [Running] while it holds the lock and runs the
    handler, and [Finished] with the way [task] ended. *)
Inductive ThreadState : Type :=
| Pending
| Running
| Finished (r : Result unit).

Record Thread : Type := mkThread {
  t_endpoint : Endpoint;
  t_req : Request;
  t_state : ThreadState
}.

(** The calls that are observable from outside, recorded in order: the parse of the body, the entry into an endpoint function,
    the attempt to put an item on the event queue, and the printing of a
    traceback. *)
Inductive Event : Type :=
| EvGetJson
| EvCall (kind : string) (req : Request)
| EvPut (item : PyVal)
| EvPrint (tb : string).

(** [class Potassium]: the fields of [self], followed by the threads it
    has started and the record of observable calls. *)
Record Potassium : Type := mkPotassium {
  name : string;
  backend : string;
  _endpoints : gmap string Endpoint;
  _context : PyVal;
  _lock : bool;
  _event_chan : Queue;
  threads : list Thread;
  trace : list Event
}.

(** [Potassium.__init__]: no endpoint, the empty context, a free lock
    and [Queue(maxsize=1)]. *)
Definition Potassium_init (name backend : string) : Potassium :=
  mkPotassium name backend ∅ (PyDict []) false (mkQueue 1 []) [] [].

(** ** The monad of the methods *)

(** A method is a function of the state of [self] that ends as a
    [Result] and leaves a new state. *)
Definition M (A : Type) : Type := Potassium -> Result A * Potassium.

Definition ret {A} (a : A) : M A := fun s => (Returned a, s).

Definition raise {A} (e : PyExn) : M A := fun s => (Raised e, s).

Definition bind {A B} (m : M A) (k : A -> M B) : M B :=
  fun s =>
    match m s with
    | (Returned a, s') => k a s'
    | (Raised e, s') => (Raised e, s')
    | (Blocked, s') => (Blocked, s')
    end.

Declare Scope py_scope.
Delimit Scope py_scope with py.
Notation "x <- m ;; k" := (bind m (fun x => k))
  (at level 100, m at next level, right associativity) : py_scope.
Notation "m ;; k" := (bind m (fun _ => k))
  (at level 100, k at level 200, right associativity) : py_scope.
Open Scope py_scope.

(** Reading and updating the fields of [self]. *)
Definition gets {A} (f : Potassium -> A) : M A := fun s => (Returned (f s), s).

Definition modify (f : Potassium -> Potassium) : M unit :=
  fun s => (Returned tt, f s).

Definition set_lock (b : bool) (s : Potassium) : Potassium :=
  mkPotassium (name s) (backend s) (_endpoints s) (_context s) b
              (_event_chan s) (threads s) (trace s).

Definition set_event_chan (q : Queue) (s : Potassium) : Potassium :=
  mkPotassium (name s) (backend s) (_endpoints s) (_context s) (_lock s)
              q (threads s) (trace s).

Definition set_endpoints (m : gmap string Endpoint) (s : Potassium) : Potassium :=
  mkPotassium (name s) (backend s) m (_context s) (_lock s)
              (_event_chan s) (threads s) (trace s).

Definition set_threads (l : list Thread) (s : Potassium) : Potassium :=
  mkPotassium (name s) (backend s) (_endpoints s) (_context s) (_lock s)
              (_event_chan s) l (trace s).

Definition set_trace (l : list Event) (s : Potassium) : Potassium :=
  mkPotassium (name s) (backend s) (_endpoints s) (_context s) (_lock s)
              (_event_chan s) (threads s) l.

Definition log (e : Event) : M unit :=
  modify (fun s => set_trace (trace s ++ [e]) s).

(** The outcome of a call that does not touch [self]. *)
Definition lift {A} (r : Result A) : M A := fun s => (r, s).

(** [try: m  except: h] with a bare [except], which catches every
    exception. *)
Definition try_except {A} (m : M A) (h : PyExn -> M A) : M A :=
  fun s =>
    match m s with
    | (Raised e, s') => h e s'
    | r => r
    end.

(** [try: m  except Exception as e: h e]: an exception that is not an
    instance of [Exception] passes through. *)
Definition try_except_Exception {A} (m : M A) (h : PyExn -> M A) : M A :=
  try_except m (fun e => if isinstance_Exception e then h e else raise e).

(** [try: m  finally: f]: [f] runs on every way out of [m]; an
    exception of [f] replaces the outcome of [m]. *)
Definition finally {A} (m : M A) (f : M unit) : M A :=
  fun s =>
    match m s with
    | (Blocked, s') => (Blocked, s')
    | (r, s') =>
        match f s' with
        | (Returned _, s'') => (r, s'')
        | (Raised e, s'') => (Raised e, s'')
        | (Blocked, s'') => (Blocked, s'')
        end
    end.

(** ** [threading.Lock] *)

Definition Lock_locked : M bool := gets _lock.

(** [acquire()] blocks while the lock is held. *)
Definition Lock_acquire : M unit :=
  fun s => if _lock s then (Blocked, s) else (Returned tt, set_lock true s).

Definition Lock_release : M unit :=
  fun s =>
    if _lock s then (Returned tt, set_lock false s)
    else (Raised (PyException "RuntimeError" "release unlocked lock"), s).

(** [with lock: body]: acquire, run the body, release on every way out
    of the body. *)
Definition with_lock {A} (body : M A) : M A :=
  Lock_acquire ;; finally body Lock_release.

(** ** [queue.Queue] *)

Definition Queue_full (q : Queue) : bool :=
  ((0 <? maxsize q) && (maxsize q <=? Z.of_nat (length (queue q))))%Z.

(** [put(item, block=False)]: raises [Full] when no slot is free. *)
Definition Queue_put_nowait (item : PyVal) : M unit :=
  log (EvPut item) ;;
  q <- gets _event_chan ;;
  if Queue_full q then raise Full
  else modify (set_event_chan (mkQueue (maxsize q) (queue q ++ [item]))).

(** [get()]: blocks while the queue is empty, then removes and returns
    the oldest item. *)
Definition Queue_get : M PyVal :=
  fun s =>
    match queue (_event_chan s) with
    | [] => (Blocked, s)
    | x :: rest =>
        (Returned x, set_event_chan (mkQueue (maxsize (_event_chan s)) rest) s)
    end.

(** [Potassium._write_event_chan] *)
Definition _write_event_chan (item : PyVal) : M unit :=
  try_except (Queue_put_nowait item)
    (fun e => match e with Full => ret tt | _ => raise e end).

(** [Potassium._read_event_chan] *)
Definition _read_event_chan : M PyVal := Queue_get.

(** [Potassium._is_working] *)
Definition _is_working : M bool := Lock_locked.

(** ** The request objects of the adapters *)

(** What an adapter receives for one POST: the outcome that
    [request.get_json()] has on it (Flask) and its raw body
    ([await request.body()], FastAPI). *)
Record HttpRequest : Type := mkHttpRequest {
  get_json : Result PyVal;
  body : string
}.

(** The third argument of [_handle_generic]: Flask's [request] object
    or, under FastAPI, the bytes of the body. *)
Inductive RequestArg : Type :=
| FlaskRequest (r : HttpRequest)
| RawBody (b : string).

(** Whether [_handle_generic] runs inside an application context of
    Flask: it does when it is called from the view of the Flask
    application, which hands it Flask's [request]; under FastAPI no
    Flask application is running and it is handed bytes. *)
Definition has_app_context (flask_request : RequestArg) : bool :=
  match flask_request with
  | FlaskRequest _ => true
  | RawBody _ => false
  end.

(** A user function, as decorated: [func(context, request)]. *)
Definition UserFunc : Type := PyVal -> Request -> Result PyVal.

Definition started_body : PyVal := PyDict [("started", PyBool true)].

(** Attribute reads on a handler's return value. *)
Definition getattr_json (out : PyVal) : Result PyVal :=
  match out with
  | PyResponse _ json => Returned json
  | _ => Raised (PyException "AttributeError" "json")
  end.

Definition getattr_status (out : PyVal) : Result Z :=
  match out with
  | PyResponse status _ => Returned status
  | _ => Raised (PyException "AttributeError" "status")
  end.

(** ** Registration: [Potassium.handler] and [Potassium.background] *)

(** The [wrapper] of [handler]: call the user function, then insist on
    [type(out) == Response] and [type(out.json) == dict]. *)
Definition handler_wrapper (f : UserFunc) : PyVal -> Request -> Result PyVal :=
  fun context request =>
    match f context request with
    | Returned out =>
        if negb (PyType_eqb (type_of out) TResponse) then
          Raised (PyException "Exception" "Potassium Response object not returned")
        else
          match getattr_json out with
          | Returned json =>
              if negb (PyType_eqb (type_of json) TDict) then
                Raised (PyException "Exception"
                          "Potassium Response object json must be a dict")
              else Returned out
          | Raised e => Raised e
          | Blocked => Blocked
          end
    | Raised e => Raised e
    | Blocked => Blocked
    end.

(** The [wrapper] of [background]: the user function's result as it is. *)
Definition background_wrapper (f : UserFunc) : PyVal -> Request -> Result PyVal :=
  fun context request => f context request.

(** [self._endpoints[route] = Endpoint(type="handler", func=wrapper)];
    the decorator also returns [wrapper], which dispatch never uses. *)
Definition handler (route : string) (f : UserFunc) : M unit :=
  modify (fun s =>
    set_endpoints (<[route := mkEndpoint "handler" (handler_wrapper f)]> (_endpoints s)) s).

(** [self._endpoints[route] = Endpoint(type="background", func=wrapper)] *)
Definition background (route : string) (f : UserFunc) : M unit :=
  modify (fun s =>
    set_endpoints (<[route := mkEndpoint "background" (background_wrapper f)]> (_endpoints s)) s).

(** ** Dispatch *)

(** [endpoint.func(req)]: the call is recorded, the wrapper reads
    [self._context]. *)
Definition call (endpoint : Endpoint) (req : Request) : M PyVal :=
  log (EvCall (type endpoint) req) ;;
  context <- gets _context ;;
  lift (func endpoint context req).

(** [flask_request.get_json() if self.backend != "FastAPI" else flask_request] *)
Definition req_json_of (flask_request : RequestArg) : M PyVal :=
  b <- gets backend ;;
  if negb (b =? "FastAPI")%string then
    match flask_request with
    | FlaskRequest r => log EvGetJson ;; lift (get_json r)
    | RawBody _ => raise (PyException "AttributeError" "get_json")
    end
  else
    ret (match flask_request with
         | RawBody b => PyBytes b
         | FlaskRequest _ => PyObject "flask.Request"
         end).

(** [Thread(target=task, args=(endpoint, self._lock, req)).start()]:
    the new thread exists and has not run yet. *)
Definition Thread_start (endpoint : Endpoint) (req : Request) : M unit :=
  modify (fun s => set_threads (threads s ++ [mkThread endpoint req Pending]) s).

(** ** The background task *)

(** The body of [with lock:] in [task]. *)
Definition task_body (endpoint : Endpoint) (req : Request) : M unit :=
  try_except_Exception
    (call endpoint req ;; ret tt)
    (fun e => _write_event_chan (PyBool true) ;; raise e).

(** [task(endpoint, lock, req)] of [_handle_generic]; [lock] is
    [self._lock]. *)
Definition task (endpoint : Endpoint) (req : Request) : M unit :=
  with_lock (task_body endpoint req) ;;
  _write_event_chan (PyBool true).

(** [task] from the point where it holds the lock. *)
Definition task_locked (endpoint : Endpoint) (req : Request) : M unit :=
  finally (task_body endpoint req) Lock_release ;;
  _write_event_chan (PyBool true).

Section Dispatch.

(** [traceback.format_exc()] for the exception being handled; the text
    is the library's. *)
Context (format_exc : PyExn -> string).

(** [Potassium._handle_generic].  [None] is Python's [None], returned
    when no branch is taken. *)
Definition _handle_generic (route : string) (endpoint : Endpoint)
    (flask_request : RequestArg) : M (option WireResponse) :=
  let app_context := has_app_context flask_request in
  working <- _is_working ;;
  if working then
    b <- gets backend ;;
    res <- lift (if negb (b =? "FastAPI")%string
                 then JSONResponse None else make_response app_context None) ;;
    let res := set_status_code 423 res in
    let res := set_header "X-Endpoint-Type" (type endpoint) res in
    ret (Some res)
  else if (type endpoint =? "handler")%string then
    req_json <- req_json_of flask_request ;;
    let req := mkRequest req_json in
    with_lock
      (try_except
         (out <- call endpoint req ;;
          json <- lift (getattr_json out) ;;
          b <- gets backend ;;
          res <- lift (if (b =? "FastAPI")%string
                       then JSONResponse (Some json)
                       else make_response app_context (Some json)) ;;
          status <- lift (getattr_status out) ;;
          let res := set_status_code status res in
          let res := set_header "X-Endpoint-Type" (type endpoint) res in
          ret (Some res))
         (fun e =>
          let tb_str := format_exc e in
          log (EvPrint tb_str) ;;
          b <- gets backend ;;
          res <- lift (if negb (b =? "FastAPI")%string
                       then JSONResponse (Some (PyStr tb_str))
                       else make_response app_context (Some (PyStr tb_str))) ;;
          let res := set_status_code 500 res in
          let res := set_header "X-Endpoint-Type" (type endpoint) res in
          ret (Some res)))
  else if (type endpoint =? "background")%string then
    req_json <- req_json_of flask_request ;;
    let req := mkRequest req_json in
    Thread_start endpoint req ;;
    res <- lift (make_response app_context (Some started_body)) ;;
    let res := set_header "X-Endpoint-Type" (type endpoint) res in
    ret (Some res)
  else ret None.

(** [handle] of [_create_flask_app]. *)
Definition flask_handle (path : string) (request : HttpRequest)
  : M (option WireResponse) :=
  let route := "/" ++ path in
  endpoints <- gets _endpoints ;;
  match endpoints !! route with
  | None => raise (HTTPException 404 [])
  | Some endpoint => _handle_generic route endpoint (FlaskRequest request)
  end.

(** [handle] of [_create_fastapi_app]. *)
Definition fastapi_handle (request : HttpRequest) (path : string)
  : M (option WireResponse) :=
  let request_json := body request in
  let route := "/" ++ path in
  endpoints <- gets _endpoints ;;
  match endpoints !! route with
  | None => raise (HTTPException 404 [])
  | Some endpoint => _handle_generic route endpoint (RawBody request_json)
  end.

(** One POST to the served application: [serve] installs the FastAPI
    [handle] when [self.backend == "FastAPI"] and the Flask one
    otherwise. *)
Definition dispatch (path : string) (request : HttpRequest)
  : M (option WireResponse) :=
  b <- gets backend ;;
  if (b =? "FastAPI")%string then fastapi_handle request path
  else flask_handle path request.

(** ** Threads and the operations on a served application *)

(** Thread [i] returns from [lock.acquire()], when the lock is free. *)
Definition thread_enter (i : nat) (s : Potassium) : Potassium :=
  match threads s !! i with
  | Some t =>
      match t_state t with
      | Pending =>
          match Lock_acquire s with
          | (Returned _, s') =>
              set_threads
                (<[i := mkThread (t_endpoint t) (t_req t) Running]> (threads s')) s'
          | _ => s
          end
      | _ => s
      end
  | None => s
  end.

(** Thread [i], holding the lock, runs the rest of [task] to its end. *)
Definition thread_exit (i : nat) (s : Potassium) : Potassium :=
  match threads s !! i with
  | Some t =>
      match t_state t with
      | Running =>
          match task_locked (t_endpoint t) (t_req t) s with
          | (Blocked, _) => s
          | (r, s') =>
              set_threads
                (<[i := mkThread (t_endpoint t) (t_req t) (Finished r)]> (threads s')) s'
          end
      | _ => s
      end
  | None => s
  end.

(** What can happen to an application object: a registration, a POST
    through the adapter, a step of a background thread, a write to or a
    read from the event queue. *)
Inductive Op : Type :=
| OpHandler (route : string) (f : UserFunc)
| OpBackground (route : string) (f : UserFunc)
| OpPost (path : string) (request : HttpRequest)
| OpThreadEnter (i : nat)
| OpThreadExit (i : nat)
| OpWriteEvent (item : PyVal)
| OpReadEvent.

Definition exec (op : Op) (s : Potassium) : Potassium :=
  match op with
  | OpHandler route f => snd (handler route f s)
  | OpBackground route f => snd (background route f s)
  | OpPost path request => snd (dispatch path request s)
  | OpThreadEnter i => thread_enter i s
  | OpThreadExit i => thread_exit i s
  | OpWriteEvent item => snd (_write_event_chan item s)
  | OpReadEvent => snd (_read_event_chan s)
  end.

Definition run_ops (ops : list Op) (s : Potassium) : Potassium :=
  fold_left (fun s op => exec op s) ops s.

(** The states an application object can be in. *)
Definition reachable (s : Potassium) : Prop :=
  exists name backend ops, s = run_ops ops (Potassium_init name backend).

End Dispatch.

(** ** Reading a request, a response and a trace *)

(** The [flask_request] argument that the served [handle] passes on. *)
Definition adapter_arg (backend : string) (request : HttpRequest) : RequestArg :=
  if (backend =? "FastAPI")%string then RawBody (body request)
  else FlaskRequest request.

(** The kind marker of a response. *)
Definition marker (res : WireResponse) : option string :=
  headers res !! "X-Endpoint-Type".

Definition is_put (e : Event) : bool :=
  match e with EvPut _ => true | _ => false end.


Definition is_get_json (e : Event) : bool :=
  match e with EvGetJson => true | _ => false end.

(** The number of puts attempted on the event queue so far. *)
Definition publishes (s : Potassium) : nat :=
  length (filter (fun e => is_put e = true) (trace s)).

(** The number of unread items on the event queue. *)
Definition pending (s : Potassium) : nat := length (queue (_event_chan s)).

(** At most one unread item, in a queue of bound one. *)
Definition chan_inv (s : Potassium) : Prop :=
  maxsize (_event_chan s) = 1 /\ (pending s <= 1)%nat.

(** A computation preserves a property of the state. *)
Definition preserves {A} (P : Potassium -> Prop) (m : M A) : Prop :=
  forall s, P s -> P (snd (m s)).

(** Every registered endpoint was stored by one of the two decorators. *)
Definition registry_ok (s : Potassium) : Prop :=
  forall route endpoint,
    _endpoints s !! route = Some endpoint ->
    type endpoint = "handler" \/ type endpoint = "background".

(** What goes out for the outcome of [handle], where the outcome alone
    decides it.  For an [HTTPException] that left [handle] it is a
    response with the status code and the headers of the exception.  A
    response built by Flask is sent as it is.  A Starlette response is
    sent as it is by FastAPI and refused by Flask, which answers with
    an error of its own; the outcome does not tell which of the two is
    serving, and nothing is said ([None]), as for the other
    exceptions. *)
Definition wire_response (r : Result (option WireResponse)) : option WireResponse :=
  match r with
  | Returned (Some res) =>
      match res_class res with
      | StarletteJSONResponse => None
      | _ => Some res
      end
  | Raised (HTTPException code hdrs) =>
      Some (mkWire ErrorResponse PyNone code (list_to_map hdrs))
  | _ => None
  end.

(** A computation returns only values that satisfy [Q]. *)
Definition ensures {A} (Q : A -> Prop) (m : M A) : Prop :=
  forall s, match fst (m s) with Returned a => Q a | _ => True end.

(** The contract on a blocking handler's return value: it is a
    [Response] and its [json] is a [dict]. *)
Definition contract_ok (out : PyVal) : bool :=
  PyType_eqb (type_of out) TResponse
  && match getattr_json out with
     | Returned json => PyType_eqb (type_of json) TDict
     | _ => false
     end.

(** ** Startup: [Potassium.init] and [Potassium.serve] *)

Definition set_context (c : PyVal) (s : Potassium) : Potassium :=
  mkPotassium (name s) (backend s) (_endpoints s) c (_lock s)
              (_event_chan s) (threads s) (trace s).

(** [self._init_func]: the [default_func] of [__init__], or the
    [wrapper] that [init] builds around a user function.  The user
    function takes no argument; it is given by the outcome of its
    call. *)
Inductive InitFunc : Type :=
| default_func
| init_wrapper (func : Result PyVal).

(** The application object with its [_init_func] field. *)
Record App : Type := mkApp {
  self : Potassium;
  _init_func : InitFunc
}.

Definition App_init (name backend : string) : App :=
  mkApp (Potassium_init name backend) default_func.

(** [Potassium.init]: [self._init_func = wrapper]. *)
Definition init (func : Result PyVal) (a : App) : App :=
  mkApp (self a) (init_wrapper func).

(** A call of [self._init_func]: [default_func] returns at once, the
    wrapper does [self._context = func()]. *)
Definition call_init_func (f : InitFunc) : M unit :=
  match f with
  | default_func => ret tt
  | init_wrapper func => c <- lift func ;; modify (set_context c)
  end.

(** [Potassium.serve] up to the point where the server loop starts:
    [self._init_func()] has run; the application served from then on
    is the state left, under the [handle] that [dispatch] selects. *)
Definition serve (a : App) : Result unit * Potassium :=
  call_init_func (_init_func a) (self a).

(** A decorator applied to the application object. *)
Definition decorate (m : M unit) (a : App) : App :=
  mkApp (snd (m (self a))) (_init_func a).

(** ** Mutual exclusion *)

Definition is_running (t : Thread) : bool :=
  match t_state t with Running => true | _ => false end.

(** No thread holds the lock. *)
Definition quiet (s : Potassium) : Prop :=
  forall i t, threads s !! i = Some t -> is_running t = false.

(** A running thread holds the lock, and no two threads run. *)
Definition mutex_inv (s : Potassium) : Prop :=
  (forall i t, threads s !! i = Some t -> is_running t = true -> _lock s = true)
  /\ (forall i j ti tj,
        threads s !! i = Some ti -> threads s !! j = Some tj ->
        is_running ti = true -> is_running tj = true -> i = j).

Definition is_registration (op : Op) : bool :=
  match op with
  | OpHandler _ _ | OpBackground _ _ => true
  | _ => false
  end.

(** A computation that starts with the lock free and ends, by a return
    or by an exception, ends with the lock free. *)
Definition restores {A} (m : M A) : Prop :=
  forall s, _lock s = false -> fst (m s) <> Blocked -> _lock (snd (m s)) = false.

(** ** Sample inputs *)

Definition sample_format_exc (e : PyExn) : string :=
  match e with
  | PyException cls msg => cls ++ ": " ++ msg
  | Full => "queue.Full"
  | HTTPException _ _ => "HTTPException"
  | PyBaseException cls => cls
  end.

Definition predict : UserFunc :=
  fun _ _ => Returned (PyResponse 200 (PyDict [("result", PyInt 42)])).

Definition train : UserFunc := fun _ _ => Returned PyNone.

Definition failing : UserFunc :=
  fun _ _ => Raised (PyException "ValueError" "bad input").

Definition exiting : UserFunc :=
  fun _ _ => Raised (PyBaseException "SystemExit").

Definition post_empty : HttpRequest :=
  mkHttpRequest (Returned (PyDict [])) "{}".

Definition sample_app (backend : string) : Potassium :=
  run_ops sample_format_exc
    [OpHandler "/predict" predict; OpBackground "/train" train;
     OpHandler "/fail" failing; OpBackground "/exit" exiting]
    (Potassium_init "app" backend).


(** * Properties *)

(** ** Evaluation lemmas *)

Lemma dispatch_resolve format_exc path request app :
  dispatch format_exc path request app =
  match _endpoints app !! ("/" ++ path) with
  | None => (Raised (HTTPException 404 []), app)
  | Some endpoint =>
      _handle_generic format_exc ("/" ++ path) endpoint
        (adapter_arg (backend app) request) app
  end.
Proof.
  unfold dispatch, adapter_arg, bind, gets.
  destruct (backend app =? "FastAPI")%string;
    unfold fastapi_handle, flask_handle, bind, gets, raise;
    destruct (_endpoints app !! ("/" ++ path)); reflexivity.
Qed.

(** The busy path: the outcome is that of the constructor, and the
    state is left as it was. *)
Lemma handle_generic_busy format_exc route endpoint arg app :
  _lock app = true ->
  _handle_generic format_exc route endpoint arg app =
  (match (if negb (backend app =? "FastAPI")%string
          then JSONResponse None
          else make_response (has_app_context arg) None) with
   | Returned res =>
       Returned (Some (set_header "X-Endpoint-Type" (type endpoint)
                         (set_status_code 423 res)))
   | Raised e => Raised e
   | Blocked => Blocked
   end, app).
Proof.
  intros Hl.
  unfold _handle_generic, bind, _is_working, Lock_locked, gets, lift, ret.
  rewrite Hl.
  destruct (if negb (backend app =? "FastAPI")%string
            then JSONResponse None
            else make_response (has_app_context arg) None); reflexivity.
Qed.

(** Served by either adapter, the busy path ends in an exception:
    [JSONResponse()] lacks its argument, and [make_response()] has no
    application context under FastAPI. *)
Lemma dispatch_busy_raises format_exc path request endpoint app :
  _endpoints app !! ("/" ++ path) = Some endpoint ->
  _lock app = true ->
  dispatch format_exc path request app =
  (Raised (if (backend app =? "FastAPI")%string
           then PyException "RuntimeError" "Working outside of application context."
           else PyException "TypeError" "missing argument: content"),
   app).
Proof.
  intros Hep Hl. rewrite dispatch_resolve, Hep.
  rewrite handle_generic_busy by exact Hl.
  unfold adapter_arg.
  destruct (backend app =? "FastAPI")%string; reflexivity.
Qed.


Lemma make_response_dict d :
  json_serializable (PyDict d) = true ->
  make_response true (Some (PyDict d))
  = Returned (mkWire FlaskResponse (PyDict d) 200 ∅).
Proof.
  intros H. unfold make_response. cbv beta iota delta [negb].
  rewrite H. reflexivity.
Qed.

Lemma make_response_outside args :
  make_response false args
  = Raised (PyException "RuntimeError" "Working outside of application context.").
Proof. reflexivity. Qed.

Lemma marker_set_header kind res :
  marker (set_header "X-Endpoint-Type" kind res) = Some kind.
Proof. unfold marker, set_header; simpl. apply lookup_insert_eq. Qed.

(** The parse of the body changes nothing but the trace, where it
    leaves at most a [get_json]. *)
Lemma req_json_of_frame arg app :
  exists evs,
    snd (req_json_of arg app) = set_trace (trace app ++ evs)%list app
    /\ (evs = [] \/ evs = [EvGetJson]).
Proof.
  destruct app as [n b eps ctx l q th tr].
  unfold req_json_of, bind, gets, log, modify, lift, raise, ret; simpl.
  destruct (b =? "FastAPI")%string; simpl.
  - exists []. unfold set_trace; simpl. rewrite app_nil_r. auto.
  - destruct arg; simpl.
    + exists [EvGetJson]. auto.
    + exists []. unfold set_trace; simpl. rewrite app_nil_r. auto.
Qed.

Ltac monad_unfold :=
  unfold with_lock, finally, try_except_Exception, try_except, Lock_acquire,
    Lock_release, call, Thread_start, log, modify, gets, lift, raise, ret, bind.

Ltac enter_dispatch Hl Hty Hreq :=
  unfold _handle_generic, bind, _is_working, Lock_locked, gets;
  rewrite Hl, Hty; simpl; rewrite Hreq; monad_unfold; simpl;
  try (rewrite Hl; simpl).

Ltac parse_ok arg app Hj evs Hreq :=
  let r := fresh "r" in
  let s1 := fresh "s" in
  let Hs := fresh "Hs" in
  destruct (req_json_of_frame arg app) as (evs & Hs & _);
  destruct (req_json_of arg app) as [r s1] eqn:Hreq;
  simpl in Hj, Hs; subst r s1.


(** The same under FastAPI, where [handle] passes the bytes of the
    body: [make_response] raises in the [except] branch, the lock is
    released and the [RuntimeError] leaves [_handle_generic]. *)
Lemma handle_generic_handler_raises_fastapi format_exc route endpoint arg app j e :
  _lock app = false ->
  type endpoint = "handler" ->
  (backend app =? "FastAPI")%string = true ->
  has_app_context arg = false ->
  fst (req_json_of arg app) = Returned j ->
  func endpoint (_context app) (mkRequest j) = Raised e ->
  fst (_handle_generic format_exc route endpoint arg app)
  = Raised (PyException "RuntimeError" "Working outside of application context.")
  /\ _lock (snd (_handle_generic format_exc route endpoint arg app)) = false.
Proof.
  intros Hl Hty Hb Hctx Hj He.
  parse_ok arg app Hj evs Hreq.
  enter_dispatch Hl Hty Hreq. rewrite He; simpl. rewrite Hb, Hctx; simpl.
  try (rewrite make_response_outside; simpl). auto.
Qed.

(** A blocking endpoint that returns a [Response] with a serialisable
    [dict], under the constructor that fits the adapter. *)
Lemma handle_generic_handler_returns format_exc route endpoint arg app j
    status d :
  _lock app = false ->
  type endpoint = "handler" ->
  (backend app =? "FastAPI")%string = true \/ has_app_context arg = true ->
  fst (req_json_of arg app) = Returned j ->
  func endpoint (_context app) (mkRequest j) = Returned (PyResponse status (PyDict d)) ->
  json_serializable (PyDict d) = true ->
  exists res app',
    _handle_generic format_exc route endpoint arg app = (Returned (Some res), app')
    /\ status_code res = status
    /\ content res = PyDict d
    /\ marker res = Some "handler"
    /\ _lock app' = false.
Proof.
  intros Hl Hty Hcons Hj He Hser.
  parse_ok arg app Hj evs Hreq.
  enter_dispatch Hl Hty Hreq. rewrite He; simpl.
  destruct (backend app =? "FastAPI")%string; simpl.
  - unfold JSONResponse. rewrite Hser. simpl.
    do 2 eexists. split; [reflexivity|]. rewrite marker_set_header. auto.
  - destruct Hcons as [Hcons | ->]; [discriminate|].
    rewrite (make_response_dict _ Hser). simpl.
    do 2 eexists. split; [reflexivity|]. rewrite marker_set_header. auto.
Qed.


(** A background start outside one: the thread is started, then
    [make_response] raises. *)
Lemma handle_generic_background_fastapi format_exc route endpoint arg app j :
  _lock app = false ->
  type endpoint = "background" ->
  has_app_context arg = false ->
  fst (req_json_of arg app) = Returned j ->
  fst (_handle_generic format_exc route endpoint arg app)
  = Raised (PyException "RuntimeError" "Working outside of application context.")
  /\ threads (snd (_handle_generic format_exc route endpoint arg app))
     = (threads app ++ [mkThread endpoint (mkRequest j) Pending])%list
  /\ _lock (snd (_handle_generic format_exc route endpoint arg app)) = false.
Proof.
  intros Hl Hty Hctx Hj.
  parse_ok arg app Hj evs Hreq.
  enter_dispatch Hl Hty Hreq. rewrite Hctx.
  rewrite make_response_outside. simpl. auto.
Qed.


Lemma handler_wrapper_returns f ctx req status d :
  f ctx req = Returned (PyResponse status (PyDict d)) ->
  handler_wrapper f ctx req = Returned (PyResponse status (PyDict d)).
Proof. intros H. unfold handler_wrapper. rewrite H. reflexivity. Qed.

(** ** C1: busy rejection *)

(** C1 (the code on a busy dispatch).  With a background task holding
    the lock, a POST to a registered route returns no response: under
    Flask it ends in the [TypeError] of [JSONResponse()], under FastAPI
    in the [RuntimeError] of [make_response()].  The state is left as
    it was: the body is not parsed and no endpoint function is
    called. *)
Theorem busy_dispatch_raises :
  let flask := run_ops sample_format_exc
                 [OpPost "train" post_empty; OpThreadEnter 0%nat]
                 (sample_app "Flask") in
  let fastapi := run_ops sample_format_exc
                   [OpBackground "/" train; OpPost "" post_empty;
                    OpThreadEnter 0%nat]
                   (Potassium_init "app" "FastAPI") in
  fst (_is_working flask) = Returned true
  /\ dispatch sample_format_exc "predict" post_empty flask
     = (Raised (PyException "TypeError" "missing argument: content"), flask)
  /\ fst (_is_working fastapi) = Returned true
  /\ dispatch sample_format_exc "" post_empty fastapi
     = (Raised (PyException "RuntimeError"
                  "Working outside of application context."), fastapi).
Proof.
  intros flask fastapi.
  split; [reflexivity|]. split.
  - apply (dispatch_busy_raises sample_format_exc "predict" post_empty
             (mkEndpoint "handler" (handler_wrapper predict)) flask);
      reflexivity.
  - split; [reflexivity|].
    apply (dispatch_busy_raises sample_format_exc "" post_empty
             (mkEndpoint "background" (background_wrapper train)) fastapi);
      reflexivity.
Qed.

(** ** The event queue *)

Lemma write_event_chan_full item s :
  maxsize (_event_chan s) = 1 ->
  pending s = 1%nat ->
  _write_event_chan item s
  = (Returned tt, set_trace (trace s ++ [EvPut item])%list s).
Proof.
  destruct s as [n b eps ctx l [mx qu] th tr]. unfold pending; simpl.
  intros -> Hlen.
  unfold _write_event_chan, Queue_put_nowait, Queue_full. monad_unfold; simpl.
  rewrite Hlen. reflexivity.
Qed.

Lemma write_event_chan_free item s :
  maxsize (_event_chan s) = 1 ->
  pending s = 0%nat ->
  _write_event_chan item s
  = (Returned tt,
     set_event_chan (mkQueue 1 [item]) (set_trace (trace s ++ [EvPut item])%list s)).
Proof.
  destruct s as [n b eps ctx l [mx qu] th tr]. unfold pending; simpl.
  intros -> Hlen. destruct qu; [|discriminate].
  reflexivity.
Qed.

Lemma write_event_chan_inv item s :
  chan_inv s -> chan_inv (snd (_write_event_chan item s)).
Proof.
  intros [Hmx Hp].
  destruct (pending s) as [|[|k]] eqn:Hk; [| |lia].
  - rewrite write_event_chan_free by assumption. split; reflexivity.
  - rewrite write_event_chan_full by assumption.
    split; [exact Hmx|]. unfold pending in *; simpl. lia.
Qed.

(** A write never blocks and never raises; it is one more put on the
    trace and touches nothing but the trace and the queue. *)
Lemma write_event_chan_returns item s :
  fst (_write_event_chan item s) = Returned tt
  /\ publishes (snd (_write_event_chan item s)) = S (publishes s)
  /\ _lock (snd (_write_event_chan item s)) = _lock s
  /\ threads (snd (_write_event_chan item s)) = threads s
  /\ _endpoints (snd (_write_event_chan item s)) = _endpoints s
  /\ _context (snd (_write_event_chan item s)) = _context s.
Proof.
  destruct s as [n b eps ctx l q th tr].
  unfold _write_event_chan, Queue_put_nowait, publishes. monad_unfold; simpl.
  destruct (Queue_full q); simpl;
    rewrite filter_app, length_app; simpl; repeat split; auto; lia.
Qed.

Lemma read_event_chan_inv s :
  chan_inv s -> chan_inv (snd (_read_event_chan s)).
Proof.
  intros [Hmx Hp]. unfold _read_event_chan, Queue_get, chan_inv, pending in *.
  destruct (queue (_event_chan s)) eqn:Hq; simpl.
  - rewrite Hq. auto.
  - simpl in Hp. split; [exact Hmx | lia].
Qed.


(** ** What dispatch leaves alone *)

Section Preserves.

Variable P : Potassium -> Prop.

Lemma preserves_ret {A} (a : A) : preserves P (ret a).
Proof. intros s Hs. exact Hs. Qed.

Lemma preserves_raise {A} e : preserves P (@raise A e).
Proof. intros s Hs. exact Hs. Qed.

Lemma preserves_lift {A} (r : Result A) : preserves P (lift r).
Proof. intros s Hs. exact Hs. Qed.

Lemma preserves_gets {A} (f : Potassium -> A) : preserves P (gets f).
Proof. intros s Hs. exact Hs. Qed.

Lemma preserves_bind {A B} (m : M A) (k : A -> M B) :
  preserves P m -> (forall a, preserves P (k a)) -> preserves P (bind m k).
Proof.
  intros Hm Hk s Hs. unfold bind. specialize (Hm s Hs).
  destruct (m s) as [[a|e|] s']; simpl in *; auto. apply Hk, Hm.
Qed.

Lemma preserves_try_except {A} (m : M A) (h : PyExn -> M A) :
  preserves P m -> (forall e, preserves P (h e)) -> preserves P (try_except m h).
Proof.
  intros Hm Hh s Hs. unfold try_except. specialize (Hm s Hs).
  destruct (m s) as [[a|e|] s']; simpl in *; auto. apply Hh, Hm.
Qed.

Lemma preserves_try_except_Exception {A} (m : M A) (h : PyExn -> M A) :
  preserves P m -> (forall e, preserves P (h e)) ->
  preserves P (try_except_Exception m h).
Proof.
  intros Hm Hh. apply preserves_try_except; [exact Hm|].
  intros e. destruct (isinstance_Exception e); [apply Hh | apply preserves_raise].
Qed.

Lemma preserves_finally {A} (m : M A) (f : M unit) :
  preserves P m -> preserves P f -> preserves P (finally m f).
Proof.
  intros Hm Hf s Hs. unfold finally. specialize (Hm s Hs).
  destruct (m s) as [[a|e|] s']; simpl in *; auto;
    specialize (Hf s' Hm); destruct (f s') as [[[]|e'|] s'']; simpl in *; auto.
Qed.

Hypothesis P_trace : forall l s, P s -> P (set_trace l s).
Hypothesis P_lock : forall b s, P s -> P (set_lock b s).
Hypothesis P_threads : forall l s, P s -> P (set_threads l s).

Lemma preserves_log ev : preserves P (log ev).
Proof. intros s Hs. apply P_trace, Hs. Qed.

Lemma preserves_Lock_acquire : preserves P Lock_acquire.
Proof.
  intros s Hs. unfold Lock_acquire. destruct (_lock s); simpl; auto.
Qed.

Lemma preserves_Lock_release : preserves P Lock_release.
Proof.
  intros s Hs. unfold Lock_release. destruct (_lock s); simpl; auto.
Qed.

Lemma preserves_with_lock {A} (body : M A) :
  preserves P body -> preserves P (with_lock body).
Proof.
  intros Hb. apply preserves_bind; [apply preserves_Lock_acquire|].
  intros _. apply preserves_finally; [exact Hb | apply preserves_Lock_release].
Qed.

Lemma preserves_Thread_start endpoint req : preserves P (Thread_start endpoint req).
Proof. intros s Hs. apply P_threads, Hs. Qed.

Lemma preserves_call endpoint req : preserves P (call endpoint req).
Proof.
  apply preserves_bind; [apply preserves_log|]. intros _.
  apply preserves_bind; [apply preserves_gets|]. intros c. apply preserves_lift.
Qed.

Lemma preserves_req_json_of arg : preserves P (req_json_of arg).
Proof.
  apply preserves_bind; [apply preserves_gets|]. intros b.
  destruct (negb (b =? "FastAPI")%string); [|apply preserves_ret].
  destruct arg; [|apply preserves_raise].
  apply preserves_bind; [apply preserves_log|]. intros _. apply preserves_lift.
Qed.

Ltac preserves_step :=
  first [ apply preserves_ret | apply preserves_raise | apply preserves_lift
        | apply preserves_gets | apply preserves_log
        | apply preserves_call | apply preserves_req_json_of
        | apply preserves_Thread_start
        | apply preserves_with_lock | apply preserves_try_except
        | apply preserves_bind | intro ].

Lemma preserves_handle_generic format_exc route endpoint arg :
  preserves P (_handle_generic format_exc route endpoint arg).
Proof.
  unfold _handle_generic, _is_working, Lock_locked.
  apply preserves_bind; [apply preserves_gets|]. intros working.
  destruct working; [repeat preserves_step|].
  destruct (type endpoint =? "handler")%string; [repeat preserves_step|].
  destruct (type endpoint =? "background")%string; repeat preserves_step.
Qed.

Lemma preserves_dispatch format_exc path request :
  preserves P (dispatch format_exc path request).
Proof.
  intros s Hs. rewrite dispatch_resolve.
  destruct (_endpoints s !! ("/" ++ path)); [|exact Hs].
  apply preserves_handle_generic, Hs.
Qed.

Lemma preserves_thread_enter i s : P s -> P (thread_enter i s).
Proof.
  intros Hs. unfold thread_enter.
  destruct (threads s !! i) as [t|]; [|exact Hs].
  destruct (t_state t); try exact Hs.
  unfold Lock_acquire. destruct (_lock s); [exact Hs|].
  apply P_threads, P_lock, Hs.
Qed.

Hypothesis P_write : forall item, preserves P (_write_event_chan item).

Lemma preserves_task_locked endpoint req : preserves P (task_locked endpoint req).
Proof.
  unfold task_locked, task_body.
  apply preserves_bind; [|intros _; apply P_write].
  apply preserves_finally; [|apply preserves_Lock_release].
  apply preserves_try_except_Exception; [repeat preserves_step|].
  intros e. apply preserves_bind; [apply P_write|]. intros _. apply preserves_raise.
Qed.

Lemma preserves_thread_exit i s : P s -> P (thread_exit i s).
Proof.
  intros Hs. unfold thread_exit.
  destruct (threads s !! i) as [t|]; [|exact Hs].
  destruct (t_state t); try exact Hs.
  pose proof (preserves_task_locked (t_endpoint t) (t_req t) s Hs) as H.
  destruct (task_locked (t_endpoint t) (t_req t) s) as [[[]|e|] s'];
    simpl in *; auto; apply P_threads, H.
Qed.

End Preserves.

(** ** Invariants of the reachable states *)

Lemma chan_inv_init name backend : chan_inv (Potassium_init name backend).
Proof. split; [reflexivity | unfold pending; simpl; lia]. Qed.

Lemma registry_ok_init name backend : registry_ok (Potassium_init name backend).
Proof. intros route endpoint H. simpl in H. rewrite lookup_empty in H. discriminate. Qed.

Lemma registry_ok_insert route endpoint s :
  type endpoint = "handler" \/ type endpoint = "background" ->
  registry_ok s ->
  registry_ok (set_endpoints (<[route := endpoint]> (_endpoints s)) s).
Proof.
  intros Hty Hs r e. simpl. rewrite lookup_insert.
  destruct (decide (route = r)); [intros [= <-]; exact Hty | apply Hs].
Qed.

Lemma registry_ok_write item : preserves registry_ok (_write_event_chan item).
Proof.
  intros s Hs r e.
  destruct (write_event_chan_returns item s) as (_ & _ & _ & _ & -> & _).
  apply Hs.
Qed.

Lemma exec_chan_inv format_exc op s :
  chan_inv s -> chan_inv (exec format_exc op s).
Proof.
  intros Hs. destruct op; simpl.
  - exact Hs.
  - exact Hs.
  - apply preserves_dispatch; auto.
  - apply preserves_thread_enter; auto.
  - apply preserves_thread_exit; auto. intros item. exact (write_event_chan_inv item).
  - apply write_event_chan_inv, Hs.
  - apply read_event_chan_inv, Hs.
Qed.

Lemma exec_registry_ok format_exc op s :
  registry_ok s -> registry_ok (exec format_exc op s).
Proof.
  intros Hs. destruct op; simpl.
  - apply registry_ok_insert; auto.
  - apply registry_ok_insert; auto.
  - apply preserves_dispatch; auto.
  - apply preserves_thread_enter; auto.
  - apply preserves_thread_exit; auto. exact registry_ok_write.
  - apply registry_ok_write, Hs.
  - unfold _read_event_chan, Queue_get.
    destruct (queue (_event_chan s)); exact Hs.
Qed.

Lemma run_ops_invariant format_exc (P : Potassium -> Prop) :
  (forall op s, P s -> P (exec format_exc op s)) ->
  forall ops s, P s -> P (run_ops format_exc ops s).
Proof.
  intros Hstep ops. induction ops as [|op ops IH]; intros s Hs; simpl.
  - exact Hs.
  - apply IH, Hstep, Hs.
Qed.

Lemma reachable_chan_inv format_exc s : reachable format_exc s -> chan_inv s.
Proof.
  intros (n & b & ops & ->).
  apply run_ops_invariant; [apply exec_chan_inv | apply chan_inv_init].
Qed.

Lemma reachable_registry_ok format_exc s : reachable format_exc s -> registry_ok s.
Proof.
  intros (n & b & ops & ->).
  apply run_ops_invariant; [apply exec_registry_ok | apply registry_ok_init].
Qed.

(** ** C4: the single-slot event queue *)

(** C4.  In every reachable state the event queue holds at most one
    unread item.  A write returns without blocking or raising whatever
    the queue holds; on a full slot it leaves the queue as it was, so
    the new item is dropped and the old one kept.  A read on an empty
    queue blocks and changes nothing, and returns the item once one
    has been written; a read on a filled slot returns the item and
    leaves the slot empty.  Two writes in a row leave exactly one
    unread item. *)
Theorem event_chan_single_slot
    (format_exc : PyExn -> string) (app : Potassium) :
  reachable format_exc app ->
  (pending app <= 1)%nat
  /\ (forall item, fst (_write_event_chan item app) = Returned tt)
  /\ (forall item, pending app = 1%nat ->
        _event_chan (snd (_write_event_chan item app)) = _event_chan app)
  /\ (pending app = 0%nat ->
      _read_event_chan app = (Blocked, app)
      /\ forall item,
           fst (_read_event_chan (snd (_write_event_chan item app)))
           = Returned item)
  /\ (forall v rest, queue (_event_chan app) = v :: rest ->
        fst (_read_event_chan app) = Returned v
        /\ pending (snd (_read_event_chan app)) = 0%nat)
  /\ (forall a b,
        pending (snd (_write_event_chan b (snd (_write_event_chan a app)))) = 1%nat).
Proof.
  intros Hreach.
  destruct (reachable_chan_inv _ _ Hreach) as [Hmx Hp].
  split; [exact Hp|].
  split; [intros item; apply write_event_chan_returns|].
  split.
  { intros item Hfull. rewrite write_event_chan_full by assumption. reflexivity. }
  split.
  { intros Hempty. split.
    - unfold _read_event_chan, Queue_get. unfold pending in Hempty.
      destruct (queue (_event_chan app)); [reflexivity | discriminate].
    - intros item. rewrite write_event_chan_free by assumption. reflexivity. }
  split.
  { intros v rest Hq. unfold _read_event_chan, Queue_get, pending in *.
    rewrite Hq in *. simpl in *. split; [reflexivity|].
    destruct rest; [reflexivity | simpl in Hp; lia]. }
  intros a b.
  assert (H1 : chan_inv (snd (_write_event_chan a app))
               /\ pending (snd (_write_event_chan a app)) = 1%nat).
  { destruct (pending app) as [|[|k]] eqn:Hk; [| |lia].
    - rewrite write_event_chan_free by assumption.
      split; [split|]; reflexivity.
    - rewrite write_event_chan_full by assumption.
      split; [split|]; unfold pending in *; simpl; auto; lia. }
  destruct H1 as [[Hmx1 _] Hp1].
  rewrite (write_event_chan_full b) by assumption.
  unfold pending in *; simpl. exact Hp1.
Qed.

(** C4 on the application after one background task has run and
    published: the slot is full, and a further write is dropped. *)
Lemma event_chan_single_slot_witness :
  let app := run_ops sample_format_exc
               [OpBackground "/train" train; OpPost "train" post_empty;
                OpThreadEnter 0%nat; OpThreadExit 0%nat]
               (Potassium_init "app" "Flask") in
  queue (_event_chan app) = [PyBool true]
  /\ queue (_event_chan (snd (_write_event_chan (PyBool false) app)))
     = [PyBool true]
  /\ fst (_read_event_chan app) = Returned (PyBool true)
  /\ pending (snd (_read_event_chan app)) = 0%nat.
Proof.
  intros app.
  assert (Hreach : reachable sample_format_exc app).
  { exists "app", "Flask",
      [OpBackground "/train" train; OpPost "train" post_empty;
       OpThreadEnter 0%nat; OpThreadExit 0%nat].
    reflexivity. }
  destruct (event_chan_single_slot sample_format_exc app Hreach)
    as (_ & _ & Hfull & _ & Hread & _).
  assert (Hq : queue (_event_chan app) = [PyBool true])
    by (vm_compute; reflexivity).
  split; [exact Hq|].
  split.
  - rewrite Hfull; [exact Hq | unfold pending; rewrite Hq; reflexivity].
  - apply (Hread (PyBool true) []). exact Hq.
Defined.

(** ** C3: registering a route twice *)

(** C3 (as the code has it).  A registration always returns; it stores
    the new endpoint under the route, in place of whatever was
    registered there, and leaves the other routes alone. *)
Theorem register_replaces (app : Potassium) (route : string) (f : UserFunc) :
  (fst (handler route f app) = Returned tt
   /\ _endpoints (snd (handler route f app)) !! route
      = Some (mkEndpoint "handler" (handler_wrapper f))
   /\ forall r, r <> route ->
        _endpoints (snd (handler route f app)) !! r = _endpoints app !! r)
  /\ (fst (background route f app) = Returned tt
      /\ _endpoints (snd (background route f app)) !! route
         = Some (mkEndpoint "background" (background_wrapper f))
      /\ forall r, r <> route ->
           _endpoints (snd (background route f app)) !! r = _endpoints app !! r).
Proof.
  unfold handler, background, modify; simpl.
  repeat split; try apply lookup_insert_eq;
    intros r Hr; apply lookup_insert_ne; congruence.
Qed.

(** C3 fails: with a blocking endpoint at ["/"], registering a
    background endpoint at ["/"] returns normally, and ["/"] then
    resolves to the background endpoint. *)
Lemma duplicate_route_not_rejected :
  let app := snd (handler "/" predict (Potassium_init "app" "Flask")) in
  type <$> (_endpoints app !! "/") = Some "handler"
  /\ fst (background "/" train app) = Returned tt
  /\ type <$> (_endpoints (snd (background "/" train app)) !! "/")
     = Some "background".
Proof. repeat split; vm_compute; reflexivity. Qed.

(** ** C2: the completion signal of a background task *)

Lemma bind_assoc {A B C} (m : M A) (k : A -> M B) (h : B -> M C) s :
  bind (bind m k) h s = bind m (fun a => bind (k a) h) s.
Proof. unfold bind. destruct (m s) as [[a|e|] s']; reflexivity. Qed.

(** [task] is the acquisition of the lock followed by [task_locked]. *)
Lemma task_split endpoint req s :
  task endpoint req s = bind Lock_acquire (fun _ => task_locked endpoint req) s.
Proof. unfold task, with_lock, task_locked. apply bind_assoc. Qed.

(** A task whose handler returns: one put, after the lock is released. *)
Lemma task_locked_returns endpoint req s v :
  _lock s = true ->
  func endpoint (_context s) req = Returned v ->
  fst (task_locked endpoint req s) = Returned tt
  /\ publishes (snd (task_locked endpoint req s)) = S (publishes s)
  /\ _lock (snd (task_locked endpoint req s)) = false
  /\ threads (snd (task_locked endpoint req s)) = threads s.
Proof.
  intros Hl Hf.
  destruct s as [n b eps ctx l q th tr]. simpl in *. subst l.
  unfold task_locked, task_body, _write_event_chan, Queue_put_nowait, publishes.
  monad_unfold; simpl. rewrite Hf; simpl.
  destruct (Queue_full q); simpl;
    rewrite !filter_app, !length_app; simpl; repeat split; lia.
Qed.

(** A task whose handler raises an [Exception]: one put, inside the
    lock, and the exception leaves the task. *)
Lemma task_locked_raises endpoint req s e :
  _lock s = true ->
  func endpoint (_context s) req = Raised e ->
  isinstance_Exception e = true ->
  fst (task_locked endpoint req s) = Raised e
  /\ publishes (snd (task_locked endpoint req s)) = S (publishes s)
  /\ _lock (snd (task_locked endpoint req s)) = false.
Proof.
  intros Hl Hf He.
  destruct s as [n b eps ctx l q th tr]. simpl in *. subst l.
  unfold task_locked, task_body, _write_event_chan, Queue_put_nowait, publishes.
  monad_unfold; simpl. rewrite Hf; simpl. rewrite He; simpl.
  destruct (Queue_full q); simpl;
    rewrite !filter_app, !length_app; simpl; repeat split; lia.
Qed.

(** A task whose handler raises outside [Exception]: no put. *)
Lemma task_locked_base_exception endpoint req s e :
  _lock s = true ->
  func endpoint (_context s) req = Raised e ->
  isinstance_Exception e = false ->
  fst (task_locked endpoint req s) = Raised e
  /\ publishes (snd (task_locked endpoint req s)) = publishes s
  /\ _lock (snd (task_locked endpoint req s)) = false.
Proof.
  intros Hl Hf He.
  destruct s as [n b eps ctx l q th tr]. simpl in *. subst l.
  unfold task_locked, task_body, publishes.
  monad_unfold; simpl. rewrite Hf; simpl. rewrite He; simpl.
  rewrite !filter_app, !length_app; simpl; repeat split; lia.
Qed.

Lemma task_enters endpoint req s :
  _lock s = false ->
  task endpoint req s = task_locked endpoint req (set_lock true s).
Proof.
  intros Hl. rewrite task_split. unfold bind, Lock_acquire. rewrite Hl. reflexivity.
Qed.

(** C2 (as the code has it).  A background task that starts with the
    lock free and whose handler returns, or raises an instance of
    [Exception], puts exactly one item on the event queue, and leaves
    the lock free. *)
Theorem task_publishes_once
    (endpoint : Endpoint) (req : Request) (s : Potassium) :
  _lock s = false ->
  (exists v, func endpoint (_context s) req = Returned v)
  \/ (exists e, func endpoint (_context s) req = Raised e
                /\ isinstance_Exception e = true) ->
  publishes (snd (task endpoint req s)) = S (publishes s)
  /\ _lock (snd (task endpoint req s)) = false.
Proof.
  intros Hl Hout. rewrite task_enters by exact Hl.
  assert (Hp : publishes (set_lock true s) = publishes s) by reflexivity.
  rewrite <- Hp.
  destruct Hout as [[v Hv] | (e & He & Hinst)].
  - destruct (task_locked_returns endpoint req (set_lock true s) v)
      as (_ & H1 & H2 & _); auto.
  - apply (task_locked_raises endpoint req (set_lock true s) e); auto.
Qed.

(** C2 on a handler that fails with a [ValueError]. *)
Lemma task_publishes_once_witness :
  let endpoint := mkEndpoint "background" (background_wrapper failing) in
  let req := mkRequest (PyDict []) in
  let s := Potassium_init "app" "Flask" in
  fst (task endpoint req s) = Raised (PyException "ValueError" "bad input")
  /\ publishes (snd (task endpoint req s)) = 1%nat
  /\ _lock (snd (task endpoint req s)) = false.
Proof.
  intros endpoint req s.
  split; [reflexivity|].
  apply (task_publishes_once endpoint req s).
  - reflexivity.
  - right. exists (PyException "ValueError" "bad input").
    split; reflexivity.
Defined.

(** C2 fails: a background handler that ends with [SystemExit], which
    is not an [Exception], is not caught by the task; the task ends
    with no put at all, and no signal is pending afterwards. *)
Lemma background_SystemExit_no_publish :
  let endpoint := mkEndpoint "background" (background_wrapper exiting) in
  let req := mkRequest (PyDict []) in
  let s := Potassium_init "app" "Flask" in
  let served := run_ops sample_format_exc
                  [OpPost "exit" post_empty; OpThreadEnter 0%nat;
                   OpThreadExit 0%nat]
                  (sample_app "Flask") in
  func endpoint (_context s) req = Raised (PyBaseException "SystemExit")
  /\ fst (task endpoint req s) = Raised (PyBaseException "SystemExit")
  /\ publishes (snd (task endpoint req s)) = 0%nat
  /\ pending (snd (task endpoint req s)) = 0%nat
  /\ map t_state (threads served)
     = [Finished (Raised (PyBaseException "SystemExit"))]
  /\ publishes served = 0%nat
  /\ pending served = 0%nat.
Proof. repeat split; vm_compute; reflexivity. Qed.

(** ** C5, C6, C8: blocking endpoints *)


(** The contract fails exactly when the value is not a [Response], or
    is one whose [json] is not a [dict]. *)
Lemma contract_ok_false out :
  contract_ok out = false <->
  type_of out <> TResponse
  \/ exists status json, out = PyResponse status json /\ type_of json <> TDict.
Proof.
  split.
  - destruct out as [| | | | | | |status json|]; simpl; intros H;
      try (left; discriminate).
    right. exists status, json. split; [reflexivity|].
    destruct json; simpl in *; discriminate.
  - intros [H | (status & json & -> & H)].
    + destruct out; simpl in *; try reflexivity. congruence.
    + destruct json; simpl in *; try reflexivity. congruence.
Qed.

(** C5 (the code under FastAPI).  With the lock free, a POST to a
    blocking route whose handler raises [ValueError]: the handler is
    called, the traceback is printed, and [make_response(tb_str)]
    raises in the [except] branch; the [RuntimeError] leaves
    [dispatch] and no response is returned.  The lock is released. *)
Theorem blocking_failure_raises_under_fastapi :
  let app := run_ops sample_format_exc [OpHandler "/" failing]
               (Potassium_init "app" "FastAPI") in
  let out := dispatch sample_format_exc "" post_empty app in
  _lock app = false
  /\ failing (_context app) (mkRequest (PyBytes "{}"))
     = Raised (PyException "ValueError" "bad input")
  /\ fst out
     = Raised (PyException "RuntimeError" "Working outside of application context.")
  /\ trace (snd out)
     = [EvCall "handler" (mkRequest (PyBytes "{}"));
        EvPrint "ValueError: bad input"]
  /\ _lock (snd out) = false.
Proof. repeat split; vm_compute; reflexivity. Qed.

(** C6 (the code under FastAPI).  With the lock free, a POST to a
    blocking route whose handler returns [None], or a [Response] whose
    [json] is a list: the wrapper raises its [Exception], and the
    [except] branch ends in the [RuntimeError] of [make_response]; no
    response with status 500 is returned. *)
Theorem contract_violation_raises_under_fastapi :
  let none : UserFunc := fun _ _ => Returned PyNone in
  let listed : UserFunc := fun _ _ => Returned (PyResponse 200 (PyList [])) in
  let app1 := run_ops sample_format_exc [OpHandler "/" none]
                (Potassium_init "app" "FastAPI") in
  let app2 := run_ops sample_format_exc [OpHandler "/" listed]
                (Potassium_init "app" "FastAPI") in
  contract_ok PyNone = false
  /\ contract_ok (PyResponse 200 (PyList [])) = false
  /\ fst (dispatch sample_format_exc "" post_empty app1)
     = Raised (PyException "RuntimeError" "Working outside of application context.")
  /\ fst (dispatch sample_format_exc "" post_empty app2)
     = Raised (PyException "RuntimeError" "Working outside of application context.")
  /\ trace (snd (dispatch sample_format_exc "" post_empty app1))
     = [EvCall "handler" (mkRequest (PyBytes "{}"));
        EvPrint "Exception: Potassium Response object not returned"].
Proof. repeat split; vm_compute; reflexivity. Qed.

(** C8 (as the code has it).  A POST to a blocking endpoint, with the
    lock free and a body that parses, whose handler returns a
    [Response] whose [json] is a [dict] that has a JSON encoding: the
    response has the status and the body of that [Response], and the
    lock is free afterwards. *)
Theorem blocking_success
    (format_exc : PyExn -> string) (app : Potassium) (path : string)
    (request : HttpRequest) (f : UserFunc) (j : PyVal)
    (status : Z) (payload : list (string * PyVal)) :
  _endpoints app !! ("/" ++ path)
    = Some (mkEndpoint "handler" (handler_wrapper f)) ->
  _lock app = false ->
  fst (req_json_of (adapter_arg (backend app) request) app) = Returned j ->
  f (_context app) (mkRequest j) = Returned (PyResponse status (PyDict payload)) ->
  json_serializable (PyDict payload) = true ->
  exists res app',
    dispatch format_exc path request app = (Returned (Some res), app')
    /\ status_code res = status
    /\ content res = PyDict payload
    /\ _lock app' = false.
Proof.
  intros Hep Hl Hj Hf Hser.
  rewrite dispatch_resolve, Hep.
  destruct (handle_generic_handler_returns format_exc ("/" ++ path)
              (mkEndpoint "handler" (handler_wrapper f))
              (adapter_arg (backend app) request) app j status payload)
    as (res & app' & Hres & Hst & Hc & _ & Hl'); auto.
  { unfold adapter_arg.
    destruct (backend app =? "FastAPI")%string; [left | right]; reflexivity. }
  { simpl. apply handler_wrapper_returns, Hf. }
  exists res, app'. auto.
Qed.

(** C8 (as the code has it) on the sample handler, at [/predict] under
    Flask and at [/] under FastAPI: status 200 and body
    [{"result": 42}]. *)
Lemma blocking_success_witness :
  (exists res app',
     dispatch sample_format_exc "predict" post_empty (sample_app "Flask")
       = (Returned (Some res), app')
     /\ status_code res = 200
     /\ content res = PyDict [("result", PyInt 42)]
     /\ _lock app' = false)
  /\ (exists res app',
        dispatch sample_format_exc "" post_empty
          (snd (handler "/" predict (Potassium_init "app" "FastAPI")))
          = (Returned (Some res), app')
        /\ status_code res = 200
        /\ content res = PyDict [("result", PyInt 42)]
        /\ _lock app' = false).
Proof.
  split.
  - apply (blocking_success sample_format_exc (sample_app "Flask") "predict"
             post_empty predict (PyDict []) 200 [("result", PyInt 42)]);
      reflexivity.
  - apply (blocking_success sample_format_exc
             (snd (handler "/" predict (Potassium_init "app" "FastAPI")))
             "" post_empty predict (PyBytes "{}") 200 [("result", PyInt 42)]);
      reflexivity.
Defined.

(** C8 fails: a handler that returns [Response(status=200,
    json={"blob": b"x"})], a [Response] with a mapping payload, is
    answered under Flask with status 500, because the payload has no
    JSON encoding and [make_response] raises inside the [try]; and a
    payload that is a mapping without being exactly a [dict] fails the
    wrapper's type test, with the same status 500. *)
Lemma unserializable_payload_is_500 :
  let blob : UserFunc :=
    fun _ _ => Returned (PyResponse 200 (PyDict [("blob", PyBytes "x")])) in
  let ordered : UserFunc :=
    fun _ _ => Returned (PyResponse 200 (PyObject "OrderedDict")) in
  let app := run_ops sample_format_exc
               [OpHandler "/blob" blob; OpHandler "/ordered" ordered]
               (Potassium_init "app" "Flask") in
  contract_ok (PyResponse 200 (PyDict [("blob", PyBytes "x")])) = true
  /\ (status_code <$> match fst (dispatch sample_format_exc "blob" post_empty app) with
                      | Returned r => r
                      | _ => None
                      end) = Some 500
  /\ (status_code <$> match fst (dispatch sample_format_exc "ordered" post_empty app) with
                      | Returned r => r
                      | _ => None
                      end) = Some 500.
Proof. repeat split; vm_compute; reflexivity. Qed.

(** ** C7, C10: background endpoints *)

(** C7 (the code under FastAPI).  With the lock free, a POST to the
    background route: the thread is started, then
    [make_response({"started": True})] raises; the [RuntimeError]
    leaves [dispatch] and the caller gets no acknowledgment. *)
Theorem background_ack_raises_under_fastapi :
  let app := run_ops sample_format_exc [OpBackground "/" train]
               (Potassium_init "app" "FastAPI") in
  let out := dispatch sample_format_exc "" post_empty app in
  _lock app = false
  /\ fst out
     = Raised (PyException "RuntimeError" "Working outside of application context.")
  /\ map t_state (threads (snd out)) = [Pending]
  /\ _lock (snd out) = false.
Proof. repeat split; vm_compute; reflexivity. Qed.



(** C10 (the code under FastAPI).  With the lock free, a POST to a
    background route whose handler returns a [Response] with a list as
    [json]: the value is never checked, and the task, once run, ends
    normally with one put; but the caller gets no acknowledgment,
    because [make_response] raises after the thread is started. *)
Theorem background_unchecked_ack_raises_under_fastapi :
  let bad : UserFunc := fun _ _ => Returned (PyResponse 200 (PyList [])) in
  let app := run_ops sample_format_exc [OpBackground "/" bad]
               (Potassium_init "app" "FastAPI") in
  let out := dispatch sample_format_exc "" post_empty app in
  let done := thread_exit 0 (thread_enter 0 (snd out)) in
  contract_ok (PyResponse 200 (PyList [])) = false
  /\ fst out
     = Raised (PyException "RuntimeError" "Working outside of application context.")
  /\ map t_state (threads done) = [Finished (Returned tt)]
  /\ publishes done = 1%nat.
Proof. repeat split; vm_compute; reflexivity. Qed.

(** ** C9: the kind marker *)

Section Ensures.

Context {A : Type} (Q : A -> Prop).

Lemma ensures_ret a : Q a -> ensures Q (ret a).
Proof. intros Ha s. exact Ha. Qed.

Lemma ensures_bind {B} (m : M B) (k : B -> M A) :
  (forall b, ensures Q (k b)) -> ensures Q (bind m k).
Proof.
  intros Hk s. unfold bind.
  destruct (m s) as [[b|e|] s']; simpl; auto. apply Hk.
Qed.

Lemma ensures_try_except (m : M A) (h : PyExn -> M A) :
  ensures Q m -> (forall e, ensures Q (h e)) -> ensures Q (try_except m h).
Proof.
  intros Hm Hh s. unfold try_except. specialize (Hm s).
  destruct (m s) as [[a|e|] s']; simpl in *; auto. apply Hh.
Qed.

Lemma ensures_finally (m : M A) (f : M unit) :
  ensures Q m -> ensures Q (finally m f).
Proof.
  intros Hm s. unfold finally. specialize (Hm s).
  destruct (m s) as [[a|e|] s']; simpl in *; auto;
    destruct (f s') as [[[]|e'|] s'']; simpl; auto.
Qed.

Lemma ensures_with_lock (body : M A) :
  ensures Q body -> ensures Q (with_lock body).
Proof.
  intros Hb. apply ensures_bind. intros _. apply ensures_finally, Hb.
Qed.

End Ensures.

(** Whatever [_handle_generic] returns for an endpoint stored by a
    decorator is a response marked with the type of that endpoint. *)
Lemma handle_generic_marker format_exc route endpoint arg :
  type endpoint = "handler" \/ type endpoint = "background" ->
  ensures (fun r => exists res, r = Some res /\ marker res = Some (type endpoint))
    (_handle_generic format_exc route endpoint arg).
Proof.
  intros Hty. unfold _handle_generic.
  apply ensures_bind. intros working. destruct working.
  { do 2 (apply ensures_bind; intro). apply ensures_ret.
    eexists. split; [reflexivity | apply marker_set_header]. }
  destruct Hty as [Hty | Hty]; rewrite Hty; simpl.
  - apply ensures_bind. intros req_json. apply ensures_with_lock.
    apply ensures_try_except.
    + do 5 (apply ensures_bind; intro). apply ensures_ret.
      eexists. split; [reflexivity | apply marker_set_header].
    + intros e. do 3 (apply ensures_bind; intro). apply ensures_ret.
      eexists. split; [reflexivity | apply marker_set_header].
  - do 3 (apply ensures_bind; intro). apply ensures_ret.
    eexists. split; [reflexivity | apply marker_set_header].
Qed.

(** C9 (as the code has it).  On a reachable application, what a POST
    to a registered route returns, if it returns, is a response that
    carries the type of the endpoint registered under that route as
    its kind marker; a POST to a route that is not registered raises
    [HTTPException(404)] with no header, and what goes out for it
    carries no kind marker. *)
Theorem built_responses_carry_kind
    (format_exc : PyExn -> string) (app : Potassium) (path : string)
    (request : HttpRequest) :
  reachable format_exc app ->
  (forall endpoint r,
      _endpoints app !! ("/" ++ path) = Some endpoint ->
      fst (dispatch format_exc path request app) = Returned r ->
      exists res, r = Some res /\ marker res = Some (type endpoint))
  /\ (_endpoints app !! ("/" ++ path) = None ->
      dispatch format_exc path request app = (Raised (HTTPException 404 []), app)
      /\ exists res,
           wire_response (fst (dispatch format_exc path request app)) = Some res
           /\ status_code res = 404
           /\ marker res = None).
Proof.
  intros Hreach. split.
  - intros endpoint r Hep Hr.
    pose proof (reachable_registry_ok _ _ Hreach _ _ Hep) as Hty.
    rewrite dispatch_resolve, Hep in Hr.
    pose proof (handle_generic_marker format_exc ("/" ++ path) endpoint
                  (adapter_arg (backend app) request) Hty app) as H.
    rewrite Hr in H. exact H.
  - intros Hnone. rewrite dispatch_resolve, Hnone. split; [reflexivity|].
    eexists. split; [reflexivity|]. split; [reflexivity|].
    unfold marker; simpl. apply lookup_empty.
Qed.

(** C9 (as the code has it) on the sample application: the marker of
    the answer of [/predict], and the 404 of a route nobody registered. *)
Lemma built_responses_carry_kind_witness :
  let app := run_ops sample_format_exc
               [OpHandler "/predict" predict; OpBackground "/train" train]
               (Potassium_init "app" "Flask") in
  (exists res,
     fst (dispatch sample_format_exc "predict" post_empty app)
       = Returned (Some res)
     /\ marker res = Some "handler")
  /\ dispatch sample_format_exc "nope" post_empty app
     = (Raised (HTTPException 404 []), app).
Proof.
  intros app.
  assert (Hreach : reachable sample_format_exc app).
  { exists "app", "Flask",
      [OpHandler "/predict" predict; OpBackground "/train" train].
    reflexivity. }
  destruct (built_responses_carry_kind sample_format_exc app "predict"
              post_empty Hreach) as [Hreg _].
  destruct (built_responses_carry_kind sample_format_exc app "nope"
              post_empty Hreach) as [_ Hnone].
  split.
  - destruct (Hreg (mkEndpoint "handler" (handler_wrapper predict))
                (Some (set_header "X-Endpoint-Type" "handler"
                         (set_status_code 200
                            (mkWire FlaskResponse
                               (PyDict [("result", PyInt 42)]) 200 ∅)))))
      as (res & Hres & Hmk); [reflexivity | vm_compute; reflexivity |].
    exists res. split; [rewrite <- Hres; reflexivity | exact Hmk].
  - apply Hnone. reflexivity.
Defined.

(** C9 fails: the answer to a POST on a route that is not registered
    has status 404 and no kind marker. *)
Lemma unknown_route_has_no_marker :
  let app := sample_app "Flask" in
  _endpoints app !! "/nope" = None
  /\ fst (dispatch sample_format_exc "nope" post_empty app)
     = Raised (HTTPException 404 [])
  /\ (status_code <$> wire_response (fst (dispatch sample_format_exc "nope" post_empty app)))
     = Some 404
  /\ (marker <$> wire_response (fst (dispatch sample_format_exc "nope" post_empty app)))
     = Some None.
Proof. repeat split; vm_compute; reflexivity. Qed.

(** * Further properties of the code *)

(** ** What serving leaves alone *)

Lemma preserves_untouched {A} (proj : Potassium -> A) (v : A)
    format_exc (op : Op) (s : Potassium) :
  (forall l s, proj (set_trace l s) = proj s) ->
  (forall b s, proj (set_lock b s) = proj s) ->
  (forall l s, proj (set_threads l s) = proj s) ->
  (forall q s, proj (set_event_chan q s) = proj s) ->
  is_registration op = false ->
  proj s = v -> proj (exec format_exc op s) = v.
Proof.
  intros Htr Hlk Hth Hq Hop Hs.
  assert (Hw : forall item,
             preserves (fun s => proj s = v) (_write_event_chan item)).
  { intros item s0 H0. destruct s0 as [n b eps ctx l q th tr].
    unfold _write_event_chan, Queue_put_nowait. monad_unfold; simpl.
    destruct (Queue_full q); simpl.
    - rewrite <- H0. apply (Htr _ (mkPotassium n b eps ctx l q th tr)).
    - rewrite <- H0.
      rewrite (Hq _ (mkPotassium n b eps ctx l q th (tr ++ [EvPut item]))).
      apply (Htr _ (mkPotassium n b eps ctx l q th tr)). }
  destruct op; simpl in *; try discriminate.
  - apply (preserves_dispatch (fun s => proj s = v)); auto;
      intros; [rewrite Htr | rewrite Hlk | rewrite Hth]; assumption.
  - apply (preserves_thread_enter (fun s => proj s = v)); auto;
      intros; [rewrite Hlk | rewrite Hth]; assumption.
  - apply (preserves_thread_exit (fun s => proj s = v)); auto;
      intros; [rewrite Htr | rewrite Hlk | rewrite Hth]; assumption.
  - apply Hw, Hs.
  - unfold _read_event_chan, Queue_get.
    destruct (queue (_event_chan s)); simpl; [exact Hs|].
    rewrite Hq. exact Hs.
Qed.

(** X3.  No sequence of operations changes the context or the backend
    of an application object, and a sequence without a registration
    (posts, thread steps, writes and reads of the event queue) leaves
    the registry as it was. *)
Theorem serving_keeps_registry_and_context
    (format_exc : PyExn -> string) (ops : list Op) (s : Potassium) :
  _context (run_ops format_exc ops s) = _context s
  /\ backend (run_ops format_exc ops s) = backend s
  /\ (forallb (fun op => negb (is_registration op)) ops = true ->
      _endpoints (run_ops format_exc ops s) = _endpoints s).
Proof.
  revert s. induction ops as [|op ops IH]; intros s; simpl.
  - auto.
  - destruct (IH (exec format_exc op s)) as (Hc & Hb & He).
    assert (Hstep : _context (exec format_exc op s) = _context s
                    /\ backend (exec format_exc op s) = backend s).
    { destruct (is_registration op) eqn:Hop.
      - destruct op; try discriminate; simpl; auto.
      - split; apply preserves_untouched; auto. }
    destruct Hstep as [Hc1 Hb1].
    split; [congruence|]. split; [congruence|].
    intros Hall. apply andb_prop in Hall as [Hop Hrest].
    rewrite He by exact Hrest.
    apply preserves_untouched; auto.
    destruct (is_registration op); [discriminate | reflexivity].
Qed.

(** X3 on the sample application: three steps of serving. *)
Lemma serving_keeps_registry_and_context_witness :
  _endpoints (run_ops sample_format_exc
                [OpPost "train" post_empty; OpThreadEnter 0%nat;
                 OpThreadExit 0%nat] (sample_app "Flask"))
  = _endpoints (sample_app "Flask").
Proof.
  apply (serving_keeps_registry_and_context sample_format_exc
           [OpPost "train" post_empty; OpThreadEnter 0%nat; OpThreadExit 0%nat]
           (sample_app "Flask")).
  reflexivity.
Defined.

(** ** The lock around a dispatch *)

Lemma restores_of_preserves {A} (m : M A) :
  preserves (fun s => _lock s = false) m -> restores m.
Proof. intros Hm s Hl _. apply Hm, Hl. Qed.

Lemma restores_bind {A B} (m : M A) (k : A -> M B) :
  preserves (fun s => _lock s = false) m ->
  (forall a, restores (k a)) -> restores (bind m k).
Proof.
  intros Hm Hk s Hl. unfold bind. specialize (Hm s Hl).
  destruct (m s) as [[a|e|] s']; simpl in *; auto.
  intros Hnb. apply Hk; assumption.
Qed.

Lemma restores_with_lock {A} (body : M A) :
  preserves (fun s => _lock s = true) body -> restores (with_lock body).
Proof.
  intros Hb s Hl. unfold with_lock, bind, Lock_acquire. rewrite Hl.
  unfold finally. specialize (Hb (set_lock true s) eq_refl).
  destruct (body (set_lock true s)) as [[a|e|] s']; simpl in *;
    try (intros H; exfalso; apply H; reflexivity);
    unfold Lock_release; rewrite Hb; reflexivity.
Qed.

Lemma handle_generic_restores format_exc route endpoint arg :
  restores (_handle_generic format_exc route endpoint arg).
Proof.
  assert (Htr : forall b l s, _lock s = b -> _lock (set_trace l s) = b) by auto.
  assert (Hth : forall b l s, _lock s = b -> _lock (set_threads l s) = b) by auto.
  unfold _handle_generic.
  apply restores_bind; [apply preserves_gets|]. intros working.
  destruct working.
  { apply restores_of_preserves.
    apply preserves_bind; [apply preserves_gets|]. intros b.
    apply preserves_bind; [apply preserves_lift|]. intros res.
    apply preserves_ret. }
  destruct (type endpoint =? "handler")%string.
  { apply restores_bind; [apply preserves_req_json_of, Htr|]. intros j.
    apply restores_with_lock. apply preserves_try_except.
    - apply preserves_bind; [apply preserves_call, Htr|]. intros out.
      apply preserves_bind; [apply preserves_lift|]. intros json.
      apply preserves_bind; [apply preserves_gets|]. intros b.
      apply preserves_bind; [apply preserves_lift|]. intros res.
      apply preserves_bind; [apply preserves_lift|]. intros status.
      apply preserves_ret.
    - intros e.
      apply preserves_bind; [apply preserves_log, Htr|]. intros _.
      apply preserves_bind; [apply preserves_gets|]. intros b.
      apply preserves_bind; [apply preserves_lift|]. intros res.
      apply preserves_ret. }
  destruct (type endpoint =? "background")%string.
  { apply restores_of_preserves.
    apply preserves_bind; [apply preserves_req_json_of, Htr|]. intros j.
    apply preserves_bind; [apply preserves_Thread_start, Hth|]. intros _.
    apply preserves_bind; [apply preserves_lift|]. intros res.
    apply preserves_ret. }
  apply restores_of_preserves, preserves_ret.
Qed.

Lemma dispatch_busy_state format_exc path request s :
  _lock s = true -> snd (dispatch format_exc path request s) = s.
Proof.
  intros Hl. rewrite dispatch_resolve.
  destruct (_endpoints s !! ("/" ++ path)); [|reflexivity].
  rewrite handle_generic_busy by exact Hl. reflexivity.
Qed.

(** X2.  Whatever the route, the body and the handler do, a dispatch
    that ends, by a return or by an exception, leaves the lock as it
    found it: held if it was held, free if it was free.  It never
    touches the event queue. *)
Theorem dispatch_restores_lock
    (format_exc : PyExn -> string) (app : Potassium) (path : string)
    (request : HttpRequest) :
  (fst (dispatch format_exc path request app) <> Blocked ->
   _lock (snd (dispatch format_exc path request app)) = _lock app)
  /\ _event_chan (snd (dispatch format_exc path request app)) = _event_chan app.
Proof.
  split.
  - intros Hnb. destruct (_lock app) eqn:Hl.
    + rewrite dispatch_busy_state by exact Hl. exact Hl.
    + rewrite dispatch_resolve in *.
      destruct (_endpoints app !! ("/" ++ path)); [|exact Hl].
      apply handle_generic_restores; assumption.
  - apply (preserves_dispatch (fun s => _event_chan s = _event_chan app)); auto.
Qed.

(** X2 on a handler that fails and on a body that does not parse. *)
Lemma dispatch_restores_lock_witness :
  _lock (snd (dispatch sample_format_exc "fail" post_empty (sample_app "Flask")))
  = false
  /\ _lock (snd (dispatch sample_format_exc "predict"
                    (mkHttpRequest (Raised (PyException "BadRequest" "400")) "{")
                    (sample_app "Flask")))
     = false.
Proof.
  split.
  - apply (dispatch_restores_lock sample_format_exc (sample_app "Flask")
             "fail" post_empty).
    vm_compute. discriminate.
  - apply (dispatch_restores_lock sample_format_exc (sample_app "Flask")
             "predict"
             (mkHttpRequest (Raised (PyException "BadRequest" "400")) "{")).
    vm_compute. discriminate.
Defined.

(** ** Mutual exclusion *)

Lemma quiet_mutex s : quiet s -> mutex_inv s.
Proof.
  intros Hq. split.
  - intros i t Ht Hr. rewrite (Hq i t Ht) in Hr. discriminate.
  - intros i j ti tj Hi Hj Hr. rewrite (Hq i ti Hi) in Hr. discriminate.
Qed.

Lemma mutex_free_quiet s : mutex_inv s -> _lock s = false -> quiet s.
Proof.
  intros [Hheld _] Hl i t Ht. destruct (is_running t) eqn:Hr; [|reflexivity].
  rewrite (Hheld i t Ht Hr) in Hl. discriminate.
Qed.

Lemma mutex_inv_ext s s' :
  threads s' = threads s -> _lock s' = _lock s -> mutex_inv s -> mutex_inv s'.
Proof. unfold mutex_inv. intros -> ->. auto. Qed.

Lemma quiet_Thread_start endpoint req :
  preserves quiet (Thread_start endpoint req).
Proof.
  intros s Hq i t. unfold Thread_start, modify; simpl.
  intros Ht. apply lookup_app_Some in Ht as [Ht | [_ Ht]].
  - apply (Hq i t Ht).
  - destruct (i - length (threads s))%nat; simpl in Ht; [|discriminate].
    injection Ht as <-. reflexivity.
Qed.

Lemma quiet_handle_generic format_exc route endpoint arg :
  preserves quiet (_handle_generic format_exc route endpoint arg).
Proof.
  assert (Htr : forall l s, quiet s -> quiet (set_trace l s)) by auto.
  assert (Hlk : forall b s, quiet s -> quiet (set_lock b s)) by auto.
  unfold _handle_generic.
  apply preserves_bind; [apply preserves_gets|]. intros working.
  destruct working.
  { apply preserves_bind; [apply preserves_gets|]. intros b.
    apply preserves_bind; [apply preserves_lift|]. intros res.
    apply preserves_ret. }
  destruct (type endpoint =? "handler")%string.
  { apply preserves_bind; [apply preserves_req_json_of, Htr|]. intros j.
    apply preserves_with_lock; [exact Hlk|]. apply preserves_try_except.
    - apply preserves_bind; [apply preserves_call, Htr|]. intros out.
      apply preserves_bind; [apply preserves_lift|]. intros json.
      apply preserves_bind; [apply preserves_gets|]. intros b.
      apply preserves_bind; [apply preserves_lift|]. intros res.
      apply preserves_bind; [apply preserves_lift|]. intros status.
      apply preserves_ret.
    - intros e.
      apply preserves_bind; [apply preserves_log, Htr|]. intros _.
      apply preserves_bind; [apply preserves_gets|]. intros b.
      apply preserves_bind; [apply preserves_lift|]. intros res.
      apply preserves_ret. }
  destruct (type endpoint =? "background")%string.
  { apply preserves_bind; [apply preserves_req_json_of, Htr|]. intros j.
    apply preserves_bind; [apply quiet_Thread_start|]. intros _.
    apply preserves_bind; [apply preserves_lift|]. intros res.
    apply preserves_ret. }
  apply preserves_ret.
Qed.

Lemma mutex_dispatch format_exc path request s :
  mutex_inv s -> mutex_inv (snd (dispatch format_exc path request s)).
Proof.
  intros Hs. destruct (_lock s) eqn:Hl.
  - rewrite dispatch_busy_state by exact Hl. exact Hs.
  - apply quiet_mutex. rewrite dispatch_resolve.
    pose proof (mutex_free_quiet s Hs Hl) as Hq.
    destruct (_endpoints s !! ("/" ++ path)); [|exact Hq].
    apply quiet_handle_generic, Hq.
Qed.

Lemma mutex_thread_enter i s : mutex_inv s -> mutex_inv (thread_enter i s).
Proof.
  intros Hs. unfold thread_enter.
  destruct (threads s !! i) as [t|] eqn:Ht; [|exact Hs].
  destruct (t_state t) eqn:Hst; try exact Hs.
  unfold Lock_acquire. destruct (_lock s) eqn:Hl; [exact Hs|].
  pose proof (mutex_free_quiet s Hs Hl) as Hq.
  assert (Hi : (i < length (threads s))%nat) by (eapply lookup_lt_Some; eauto).
  assert (Hother : forall k tk,
             <[i := mkThread (t_endpoint t) (t_req t) Running]> (threads s) !! k
             = Some tk -> is_running tk = true -> k = i).
  { intros k tk Hk Hr. destruct (decide (k = i)) as [->|Hne]; [reflexivity|].
    rewrite list_lookup_insert_ne in Hk by congruence.
    rewrite (Hq k tk Hk) in Hr. discriminate. }
  split; simpl.
  - reflexivity.
  - intros a b ta tb Ha Hb Hra Hrb.
    rewrite (Hother a ta Ha Hra), (Hother b tb Hb Hrb). reflexivity.
Qed.

Lemma task_locked_threads endpoint req s :
  threads (snd (task_locked endpoint req s)) = threads s.
Proof.
  apply (preserves_task_locked (fun s' => threads s' = threads s)); auto.
  intros item s' Hs'.
  destruct (write_event_chan_returns item s') as (_ & _ & _ & -> & _).
  exact Hs'.
Qed.

Lemma mutex_thread_exit i s : mutex_inv s -> mutex_inv (thread_exit i s).
Proof.
  intros Hs. unfold thread_exit.
  destruct (threads s !! i) as [t|] eqn:Ht; [|exact Hs].
  destruct (t_state t) eqn:Hst; try exact Hs.
  assert (Hrun : is_running t = true) by (unfold is_running; rewrite Hst; reflexivity).
  pose proof (task_locked_threads (t_endpoint t) (t_req t) s) as Hth.
  assert (Hq : forall r s',
             threads s' = threads s ->
             quiet (set_threads
                      (<[i := mkThread (t_endpoint t) (t_req t) (Finished r)]>
                         (threads s')) s')).
  { intros r s' Hs' k tk. simpl. rewrite Hs'. intros Hk.
    destruct (decide (k = i)) as [->|Hne].
    - assert (Hi : (i < length (threads s))%nat) by (eapply lookup_lt_Some; eauto).
      rewrite list_lookup_insert_eq in Hk by exact Hi.
      injection Hk as <-. reflexivity.
    - rewrite list_lookup_insert_ne in Hk by congruence.
      destruct (is_running tk) eqn:Hr; [|reflexivity].
      destruct Hs as [_ Huniq]. elim Hne.
      apply (Huniq k i tk t Hk Ht Hr Hrun). }
  destruct (task_locked (t_endpoint t) (t_req t) s) as [[[]|e|] s'];
    simpl in *; try exact Hs; apply quiet_mutex, Hq, Hth.
Qed.

Lemma mutex_exec format_exc op s :
  mutex_inv s -> mutex_inv (exec format_exc op s).
Proof.
  intros Hs. destruct op; simpl.
  - exact Hs.
  - exact Hs.
  - apply mutex_dispatch, Hs.
  - apply mutex_thread_enter, Hs.
  - apply mutex_thread_exit, Hs.
  - destruct (write_event_chan_returns item s) as (_ & _ & Hl & Hth & _).
    apply (mutex_inv_ext s); assumption.
  - unfold _read_event_chan, Queue_get.
    destruct (queue (_event_chan s)); exact Hs.
Qed.

(** X1.  In every reachable state at most one background thread is
    running its handler; while one is, the lock is held, and a dispatch
    changes nothing: it calls no handler and starts no thread. *)
Theorem mutual_exclusion (format_exc : PyExn -> string) (s : Potassium) :
  reachable format_exc s ->
  (forall i t, threads s !! i = Some t -> is_running t = true -> _lock s = true)
  /\ (forall i j ti tj,
        threads s !! i = Some ti -> threads s !! j = Some tj ->
        is_running ti = true -> is_running tj = true -> i = j)
  /\ (forall i t path request,
        threads s !! i = Some t -> is_running t = true ->
        snd (dispatch format_exc path request s) = s).
Proof.
  intros (n & b & ops & ->).
  assert (H : mutex_inv (run_ops format_exc ops (Potassium_init n b))).
  { apply (run_ops_invariant format_exc mutex_inv).
    - intros op s. apply mutex_exec.
    - apply quiet_mutex. intros i t Ht. simpl in Ht.
      rewrite lookup_nil in Ht. discriminate. }
  destruct H as [Hheld Huniq]. split; [exact Hheld|]. split; [exact Huniq|].
  intros i t path request Ht Hr.
  apply dispatch_busy_state. apply (Hheld i t Ht Hr).
Qed.

(** X1 with two tasks started: the first runs, the second cannot
    enter. *)
Lemma mutual_exclusion_witness :
  let s := run_ops sample_format_exc
             [OpBackground "/train" train;
              OpPost "train" post_empty; OpPost "train" post_empty;
              OpThreadEnter 0%nat; OpThreadEnter 1%nat]
             (Potassium_init "app" "Flask") in
  map t_state (threads s) = [Running; Pending]
  /\ _lock s = true.
Proof.
  intros s. split; [vm_compute; reflexivity|].
  assert (Hreach : reachable sample_format_exc s).
  { exists "app", "Flask",
      [OpBackground "/train" train;
       OpPost "train" post_empty; OpPost "train" post_empty;
       OpThreadEnter 0%nat; OpThreadEnter 1%nat].
    reflexivity. }
  destruct (mutual_exclusion sample_format_exc s Hreach) as (Hheld & _ & _).
  apply (Hheld 0%nat (mkThread (mkEndpoint "background" (background_wrapper train))
                        (mkRequest (PyDict [])) Running));
    vm_compute; reflexivity.
Defined.

(** ** The body of the request *)

(** X4.  Under a backend other than FastAPI, with the lock free, a POST
    to a registered blocking or background route whose body does not
    parse ([get_json] raises) ends with that exception raised to the
    caller: no response is built, no endpoint function is called, no
    thread is started, and the lock is still free. *)
Theorem parse_failure_propagates
    (format_exc : PyExn -> string) (app : Potassium) (path : string)
    (request : HttpRequest) (endpoint : Endpoint) (e : PyExn) :
  _endpoints app !! ("/" ++ path) = Some endpoint ->
  type endpoint = "handler" \/ type endpoint = "background" ->
  (backend app =? "FastAPI")%string = false ->
  _lock app = false ->
  get_json request = Raised e ->
  dispatch format_exc path request app
  = (Raised e, set_trace (trace app ++ [EvGetJson])%list app).
Proof.
  intros Hep Hty Hb Hl Hj.
  rewrite dispatch_resolve, Hep. unfold adapter_arg. rewrite Hb.
  unfold _handle_generic, req_json_of, _is_working, Lock_locked.
  monad_unfold; simpl. rewrite Hl.
  destruct Hty as [-> | ->]; simpl; rewrite Hb; simpl; rewrite Hj; reflexivity.
Qed.

(** X4 on the sample application. *)
Lemma parse_failure_propagates_witness :
  let bad := mkHttpRequest (Raised (PyException "BadRequest" "400")) "{" in
  fst (dispatch sample_format_exc "predict" bad (sample_app "Flask"))
  = Raised (PyException "BadRequest" "400")
  /\ fst (dispatch sample_format_exc "train" bad (sample_app "Flask"))
     = Raised (PyException "BadRequest" "400").
Proof.
  intros bad. split.
  - rewrite (parse_failure_propagates sample_format_exc (sample_app "Flask")
               "predict" bad (mkEndpoint "handler" (handler_wrapper predict))
               (PyException "BadRequest" "400"));
      try reflexivity. left; reflexivity.
  - rewrite (parse_failure_propagates sample_format_exc (sample_app "Flask")
               "train" bad (mkEndpoint "background" (background_wrapper train))
               (PyException "BadRequest" "400"));
      try reflexivity. right; reflexivity.
Defined.

(** X5.  Under the FastAPI backend the body is never parsed: the
    outcome of a dispatch depends on the request through its raw body
    alone, and with the lock free a blocking endpoint is called with a
    [Request] whose [json] is the bytes of the body, a background
    endpoint's thread is started with that same [Request]. *)
Theorem fastapi_passes_raw_body
    (format_exc : PyExn -> string) (app : Potassium) (path : string)
    (request : HttpRequest) (endpoint : Endpoint) :
  (backend app =? "FastAPI")%string = true ->
  (forall request',
      body request' = body request ->
      dispatch format_exc path request' app = dispatch format_exc path request app)
  /\ (_endpoints app !! ("/" ++ path) = Some endpoint ->
      _lock app = false ->
      (type endpoint = "handler" ->
       exists evs,
         trace (snd (dispatch format_exc path request app))
         = (trace app
            ++ EvCall "handler" (mkRequest (PyBytes (body request))) :: evs)%list)
      /\ (type endpoint = "background" ->
          threads (snd (dispatch format_exc path request app))
          = (threads app
             ++ [mkThread endpoint (mkRequest (PyBytes (body request))) Pending])%list)).
Proof.
  intros Hb. split.
  - intros request' Hbody. rewrite !dispatch_resolve. unfold adapter_arg.
    rewrite Hb, Hbody. reflexivity.
  - intros Hep Hl. rewrite dispatch_resolve, Hep. unfold adapter_arg. rewrite Hb.
    split; intros Hty.
    + unfold _handle_generic, req_json_of, _is_working, Lock_locked.
      monad_unfold; simpl. rewrite Hl, Hty; simpl. rewrite Hb; simpl.
      rewrite Hl; simpl.
      repeat (rewrite ?Hb, ?make_response_outside; simpl;
              try match goal with
                  | |- context [match func ?e ?c ?r with _ => _ end] =>
                      destruct (func e c r)
                  | |- context [match getattr_json ?o with _ => _ end] =>
                      destruct (getattr_json o)
                  | |- context [match getattr_status ?o with _ => _ end] =>
                      destruct (getattr_status o)
                  | |- context [match JSONResponse ?a with _ => _ end] =>
                      destruct (JSONResponse a)
                  end);
        eexists; first [reflexivity | rewrite <- app_assoc; reflexivity].
    + unfold _handle_generic, req_json_of, _is_working, Lock_locked.
      monad_unfold; simpl. rewrite Hl, Hty; simpl. rewrite Hb; simpl.
      rewrite ?make_response_outside. reflexivity.
Qed.

(** X5 on the sample application: a body that Flask would refuse is
    served under FastAPI. *)
Lemma fastapi_passes_raw_body_witness :
  let bad := mkHttpRequest (Raised (PyException "BadRequest" "400")) "{}" in
  dispatch sample_format_exc "predict" bad (sample_app "FastAPI")
  = dispatch sample_format_exc "predict" post_empty (sample_app "FastAPI").
Proof.
  intros bad.
  apply (fastapi_passes_raw_body sample_format_exc (sample_app "FastAPI")
           "predict" post_empty (mkEndpoint "handler" (handler_wrapper predict)));
    reflexivity.
Defined.

(** ** The end of a background task *)

(** X6.  A background task that starts with the lock free and whose
    handler ends: the task returns if the handler returned, and ends
    with the handler's own exception, of whatever class, if the handler
    raised; either way the lock is free afterwards and the registry,
    the context and the list of threads are as before. *)
Theorem task_ends_as_handler
    (endpoint : Endpoint) (req : Request) (s : Potassium) :
  _lock s = false ->
  func endpoint (_context s) req <> Blocked ->
  fst (task endpoint req s)
  = match func endpoint (_context s) req with
    | Returned _ => Returned tt
    | Raised e => Raised e
    | Blocked => Blocked
    end
  /\ _lock (snd (task endpoint req s)) = false
  /\ _endpoints (snd (task endpoint req s)) = _endpoints s
  /\ _context (snd (task endpoint req s)) = _context s
  /\ threads (snd (task endpoint req s)) = threads s.
Proof.
  intros Hl Hnb.
  destruct s as [n b eps ctx l q th tr]. simpl in *. subst l.
  unfold task, task_body, _write_event_chan, Queue_put_nowait.
  monad_unfold; simpl.
  destruct (func endpoint ctx req) as [v|e|]; simpl.
  - destruct (Queue_full q); simpl; auto.
  - destruct (isinstance_Exception e); simpl; [|auto].
    destruct (Queue_full q); simpl; auto.
  - elim Hnb. reflexivity.
Qed.

(** X6 on a handler that exits the interpreter. *)
Lemma task_ends_as_handler_witness :
  let endpoint := mkEndpoint "background" (background_wrapper exiting) in
  let s := Potassium_init "app" "Flask" in
  fst (task endpoint (mkRequest PyNone) s) = Raised (PyBaseException "SystemExit")
  /\ _lock (snd (task endpoint (mkRequest PyNone) s)) = false.
Proof.
  intros endpoint s.
  destruct (task_ends_as_handler endpoint (mkRequest PyNone) s)
    as (H1 & H2 & _); [reflexivity | discriminate |].
  split; [exact H1 | exact H2].
Defined.

(** The signal a finished task leaves on the event queue. *)
Lemma task_signal endpoint req s :
  chan_inv s ->
  _lock s = false ->
  (exists v, func endpoint (_context s) req = Returned v)
  \/ (exists e, func endpoint (_context s) req = Raised e
                /\ isinstance_Exception e = true) ->
  chan_inv (snd (task endpoint req s))
  /\ queue (_event_chan (snd (task endpoint req s)))
     = match queue (_event_chan s) with
       | [] => [PyBool true]
       | items => items
       end
  /\ publishes (snd (task endpoint req s)) = S (publishes s)
  /\ _lock (snd (task endpoint req s)) = false
  /\ _context (snd (task endpoint req s)) = _context s.
Proof.
  intros [Hmx Hp] Hl Hout.
  destruct s as [n b eps ctx l [mx qu] th tr].
  unfold chan_inv, pending, publishes in *. simpl in *. subst l mx.
  unfold task, task_body, _write_event_chan, Queue_put_nowait, Queue_full.
  monad_unfold; simpl.
  destruct Hout as [[v Hv] | (e & He & Hinst)].
  - rewrite Hv; simpl.
    destruct qu as [|x [|y qu]]; simpl in *; try lia;
      rewrite !filter_app, !length_app; simpl; repeat split; auto; lia.
  - rewrite He; simpl. rewrite Hinst; simpl.
    destruct qu as [|x [|y qu]]; simpl in *; try lia;
      rewrite !filter_app, !length_app; simpl; repeat split; auto; lia.
Qed.

(** X7.  On a reachable state with the lock free and no unread signal,
    once a background task whose handler returns or raises an
    [Exception] has ended, a read of the event queue returns [True]
    without blocking and leaves the queue empty. *)
Theorem completion_signal_is_read
    (format_exc : PyExn -> string) (endpoint : Endpoint) (req : Request)
    (s : Potassium) :
  reachable format_exc s ->
  _lock s = false ->
  pending s = 0%nat ->
  (exists v, func endpoint (_context s) req = Returned v)
  \/ (exists e, func endpoint (_context s) req = Raised e
                /\ isinstance_Exception e = true) ->
  fst (_read_event_chan (snd (task endpoint req s))) = Returned (PyBool true)
  /\ pending (snd (_read_event_chan (snd (task endpoint req s)))) = 0%nat.
Proof.
  intros Hreach Hl Hp Hout.
  destruct (task_signal endpoint req s (reachable_chan_inv _ _ Hreach) Hl Hout)
    as (_ & Hq & _).
  unfold pending in Hp.
  destruct (queue (_event_chan s)); [|discriminate].
  unfold _read_event_chan, Queue_get, pending. rewrite Hq. simpl. auto.
Qed.

(** X7 on the sample application, for the handler that fails. *)
Lemma completion_signal_is_read_witness :
  let endpoint := mkEndpoint "background" (background_wrapper failing) in
  let s := run_ops sample_format_exc [OpBackground "/fail" failing]
             (Potassium_init "app" "Flask") in
  fst (_read_event_chan (snd (task endpoint (mkRequest PyNone) s)))
  = Returned (PyBool true).
Proof.
  intros endpoint s.
  apply (completion_signal_is_read sample_format_exc endpoint (mkRequest PyNone) s).
  - exists "app", "Flask", [OpBackground "/fail" failing]. reflexivity.
  - reflexivity.
  - reflexivity.
  - right. exists (PyException "ValueError" "bad input"). split; reflexivity.
Defined.

(** X8.  Completions are not counted.  On a reachable state with the
    lock free, two background tasks that end one after the other
    before any read make two puts and leave one unread signal: a first
    read returns, a second read blocks. *)
Theorem two_completions_one_signal
    (format_exc : PyExn -> string) (e1 e2 : Endpoint) (r1 r2 : Request)
    (s : Potassium) :
  reachable format_exc s ->
  _lock s = false ->
  (exists v, func e1 (_context s) r1 = Returned v)
  \/ (exists e, func e1 (_context s) r1 = Raised e
                /\ isinstance_Exception e = true) ->
  (exists v, func e2 (_context s) r2 = Returned v)
  \/ (exists e, func e2 (_context s) r2 = Raised e
                /\ isinstance_Exception e = true) ->
  let s2 := snd (task e2 r2 (snd (task e1 r1 s))) in
  publishes s2 = S (S (publishes s))
  /\ pending s2 = 1%nat
  /\ (exists item, fst (_read_event_chan s2) = Returned item)
  /\ fst (_read_event_chan (snd (_read_event_chan s2))) = Blocked.
Proof.
  intros Hreach Hl Hout1 Hout2.
  pose proof (reachable_chan_inv _ _ Hreach) as Hinv.
  destruct (task_signal e1 r1 s Hinv Hl Hout1) as (Hinv1 & Hq1 & Hp1 & Hl1 & Hc1).
  rewrite <- Hc1 in Hout2.
  destruct (task_signal e2 r2 _ Hinv1 Hl1 Hout2) as (Hinv2 & Hq2 & Hp2 & _).
  simpl. rewrite Hp2, Hp1. split; [reflexivity|].
  destruct Hinv2 as [_ Hlen].
  unfold pending, _read_event_chan, Queue_get in *.
  destruct (queue (_event_chan (snd (task e2 r2 (snd (task e1 r1 s))))))
    as [|x [|y rest]] eqn:Hq; simpl in *.
  - exfalso. rewrite Hq1 in Hq2.
    destruct (queue (_event_chan s)); discriminate.
  - split; [reflexivity|]. split; [exists x; reflexivity | reflexivity].
  - lia.
Qed.

(** X8 on two runs of the sample handlers. *)
Lemma two_completions_one_signal_witness :
  let e1 := mkEndpoint "background" (background_wrapper train) in
  let e2 := mkEndpoint "background" (background_wrapper failing) in
  let s := run_ops sample_format_exc [OpBackground "/train" train]
             (Potassium_init "app" "Flask") in
  let s2 := snd (task e2 (mkRequest PyNone) (snd (task e1 (mkRequest PyNone) s))) in
  publishes s2 = 2%nat /\ pending s2 = 1%nat.
Proof.
  intros e1 e2 s s2.
  destruct (two_completions_one_signal sample_format_exc e1 e2
              (mkRequest PyNone) (mkRequest PyNone) s)
    as (H1 & H2 & _).
  - exists "app", "Flask", [OpBackground "/train" train]. reflexivity.
  - reflexivity.
  - left. exists PyNone. reflexivity.
  - right. exists (PyException "ValueError" "bad input"). split; reflexivity.
  - split; [exact H1 | exact H2].
Defined.

(** ** The wrapper of a blocking handler *)

(** X9.  The wrapper of [handler] returns exactly when the user
    function returns a [Response] whose [json] is a [dict], and then
    returns that very value; it never turns a failure of the user
    function into a return. *)
Theorem handler_wrapper_returns_iff
    (f : UserFunc) (context : PyVal) (request : Request) (out : PyVal) :
  handler_wrapper f context request = Returned out
  <-> f context request = Returned out /\ contract_ok out = true.
Proof.
  unfold handler_wrapper, contract_ok. split.
  - destruct (f context request) as [v|e|]; try discriminate.
    destruct v as [| | | | | | |status json|]; simpl; try discriminate.
    destruct json; simpl; try discriminate.
    intros [= <-]. auto.
  - intros [-> Hok].
    destruct out as [| | | | | | |status json|]; simpl in *; try discriminate.
    destruct json; simpl in *; try discriminate. reflexivity.
Qed.

(** X9 on the sample handler. *)
Lemma handler_wrapper_returns_iff_witness :
  handler_wrapper predict PyNone (mkRequest PyNone)
  = Returned (PyResponse 200 (PyDict [("result", PyInt 42)])).
Proof.
  apply (handler_wrapper_returns_iff predict PyNone (mkRequest PyNone)).
  split; reflexivity.
Defined.

(** ** Startup *)

Lemma req_json_of_backend arg s s' :
  backend s' = backend s ->
  fst (req_json_of arg s') = fst (req_json_of arg s).
Proof.
  intros Hb. unfold req_json_of. monad_unfold; simpl. rewrite Hb.
  destruct (negb (backend s =? "FastAPI")%string); [|reflexivity].
  destruct arg; reflexivity.
Qed.

Lemma adapter_arg_app_context b request :
  (b =? "FastAPI")%string = false ->
  has_app_context (adapter_arg b request) = true.
Proof. intros Hb. unfold adapter_arg. rewrite Hb. reflexivity. Qed.

(** X10.  [serve] runs the function given to [init] and stores what it
    returns, of whatever type, as the context; under a backend other
    than FastAPI a blocking endpoint, registered before or after the
    call of [init], is then called with that context, and answers with
    the [Response] its handler returns on it when the payload has a
    JSON encoding.  If the function given to [init] raises, [serve]
    ends with that exception and the application object is left as it
    was. *)
Theorem serve_installs_context
    (format_exc : PyExn -> string) (a : App) (path : string)
    (request : HttpRequest) (f : UserFunc) (c j : PyVal)
    (status : Z) (payload : list (string * PyVal)) :
  (backend (self a) =? "FastAPI")%string = false ->
  _lock (self a) = false ->
  fst (req_json_of (adapter_arg (backend (self a)) request) (self a)) = Returned j ->
  f c (mkRequest j) = Returned (PyResponse status (PyDict payload)) ->
  json_serializable (PyDict payload) = true ->
  let before := init (Returned c) (decorate (handler ("/" ++ path) f) a) in
  let after := decorate (handler ("/" ++ path) f) (init (Returned c) a) in
  serve before = serve after
  /\ fst (serve before) = Returned tt
  /\ _context (snd (serve before)) = c
  /\ (exists res s',
        dispatch format_exc path request (snd (serve before))
        = (Returned (Some res), s')
        /\ status_code res = status
        /\ content res = PyDict payload)
  /\ (forall e, serve (init (Raised e) a) = (Raised e, self a)).
Proof.
  intros Hb Hl Hj Hf Hser before after.
  split; [reflexivity|]. split; [reflexivity|]. split; [reflexivity|].
  split; [|reflexivity].
  rewrite dispatch_resolve. simpl.
  rewrite lookup_insert_eq.
  destruct (handle_generic_handler_returns format_exc ("/" ++ path)
              (mkEndpoint "handler" (handler_wrapper f))
              (adapter_arg (backend (self a)) request)
              (snd (serve before)) j status payload)
    as (res & s' & Hres & Hst & Hc & _); auto.
  - right. apply adapter_arg_app_context, Hb.
  - rewrite (req_json_of_backend _ (self a)); [exact Hj | reflexivity].
  - simpl. apply handler_wrapper_returns, Hf.
  - exists res, s'. auto.
Qed.

(** X10 with a context that is not a dictionary. *)
Lemma serve_installs_context_witness :
  let f : UserFunc :=
    fun context _ => Returned (PyResponse 200 (PyDict [("model", context)])) in
  let a := init (Returned (PyStr "weights"))
             (decorate (handler "/" f) (App_init "app" "Flask")) in
  fst (serve a) = Returned tt
  /\ exists res s',
       dispatch sample_format_exc "" post_empty (snd (serve a))
       = (Returned (Some res), s')
       /\ content res = PyDict [("model", PyStr "weights")].
Proof.
  intros f a.
  destruct (serve_installs_context sample_format_exc (App_init "app" "Flask")
              "" post_empty f (PyStr "weights") (PyDict []) 200
              [("model", PyStr "weights")])
    as (_ & H1 & _ & (res & s' & H2 & _ & H3) & _); try reflexivity.
  split; [exact H1|]. exists res, s'. split; [exact H2 | exact H3].
Defined.

(** ** Requests that follow a background start *)



(** ** Dispatch under Flask *)






